(** * Crislhan-MERN-BE: soft-delete persistence and the user handlers

    A shallow embedding of
    - [src/routes/v1/inventories/service.js] (the persistence adapter), and
    - [src/routes/v1/users/controller.js] (login, logout, update,
      force-delete, OTP request and OTP password reset; then listing,
      lookup, registration, soft delete, restore and password change),
    together with the properties stated for them.

    A Mongoose collection is a list of documents in natural order; a
    query object is the boolean predicate it denotes.  Handlers are
    functions from the state of the process (collections, session token
    slot, blacklist, mail and image-store traces) to a new state and
    either a response or the error that reaches the error responder. *)

From Stdlib Require Import ZArith String List Bool Lia.
From stdpp Require Import base decidable countable gmap strings.
Import ListNotations.

Local Open Scope string_scope.
Local Open Scope list_scope.

(** ** Mongoose model operations used by the services *)

Module Mongoose.
Section Model.
Context {D : Type}.
Variable id_of : D -> string.

(** The query [{ _id }]. *)
Definition byId (i : string) (d : D) : bool := String.eqb (id_of d) i.

(** [model.find(q)]: every matching document, in collection order. *)
Definition find (q : D -> bool) (c : list D) : list D := List.filter q c.

(** [model.findOne(q)]: the first matching document or [null]. *)
Fixpoint findOne (q : D -> bool) (c : list D) : option D :=
  match c with
  | [] => None
  | d :: c' => if q d then Some d else findOne q c'
  end.

(** The write half of [findOneAndUpdate]: the first match is patched. *)
Fixpoint updateOne (q : D -> bool) (f : D -> D) (c : list D) : list D :=
  match c with
  | [] => []
  | d :: c' => if q d then f d :: c' else d :: updateOne q f c'
  end.

(** The write half of [findOneAndDelete]: the first match is removed. *)
Fixpoint deleteOne (q : D -> bool) (c : list D) : list D :=
  match c with
  | [] => []
  | d :: c' => if q d then c' else d :: deleteOne q c'
  end.

(** [model.findByIdAndUpdate(_id, patch, { new })]: returns the document
    as it was before the patch, or after it when [new] is set; [null]
    and no write when no document has that id. *)
Definition findByIdAndUpdate (new : bool) (i : string) (f : D -> D)
    (c : list D) : option D * list D :=
  match findOne (byId i) c with
  | None => (None, c)
  | Some d => (Some (if new then f d else d), updateOne (byId i) f c)
  end.

(** [model.findByIdAndDelete(_id)]: returns the removed document. *)
Definition findByIdAndDelete (i : string) (c : list D)
    : option D * list D :=
  (findOne (byId i) c, deleteOne (byId i) c).

(** The primary-key index of the store: no two documents share [_id]. *)
Definition unique_ids (c : list D) : Prop := List.NoDup (map id_of c).

Definition ids (c : list D) : list string := map id_of c.
End Model.
End Mongoose.

(** ** Inventories: [src/routes/v1/inventories/service.js] *)

Module Inventory.
Record doc := {
  _id : string;
  fields : list (string * string);
  deleted : bool
}.

(** The patch [{ deleted: b }]. *)
Definition set_deleted (b : bool) (d : doc) : doc :=
  {| _id := _id d; fields := fields d; deleted := b |}.

(** An update object: the business fields it sets, in order, and the flag
    when it carries one. *)
Record patch := {
  p_fields : list (string * string);
  p_deleted : option bool
}.

(** Setting one field: an existing key gets the value, a new key is
    added. *)
Fixpoint set_field (k v : string) (fs : list (string * string))
    : list (string * string) :=
  match fs with
  | [] => [(k, v)]
  | (k', v') :: fs' =>
      if String.eqb k' k then (k, v) :: fs'
      else (k', v') :: set_field k v fs'
  end.

Definition apply_patch (p : patch) (d : doc) : doc :=
  {| _id := _id d;
     fields := fold_left (fun fs kv => set_field (fst kv) (snd kv) fs)
                 (p_fields p) (fields d);
     deleted := default (deleted d) (p_deleted p) |}.
End Inventory.

(** The listing, lookup, soft-delete, restore and hard-delete functions of
    the service.  Each takes the collection and, when it writes, returns
    the new one next to its result.  The [session] argument, a transaction
    scope handed through to Mongoose, does not change what a single call
    returns or writes and is left out. *)
Module InventoryService.
Import Inventory.

Definition Collection := list doc.

Definition getAll (c : Collection) : list doc :=
  Mongoose.find (fun d => negb (deleted d)) c.

Definition getAllDeleted (c : Collection) : list doc :=
  Mongoose.find (fun d => deleted d) c.

Definition getById (i : string) (c : Collection) : option doc :=
  Mongoose.findOne (fun d => Mongoose.byId _id i d && negb (deleted d)) c.

Definition deleteById (i : string) (c : Collection)
    : option doc * Collection :=
  Mongoose.findByIdAndUpdate _id false i (set_deleted true) c.

Definition restoreById (i : string) (c : Collection)
    : option doc * Collection :=
  Mongoose.findByIdAndUpdate _id false i (set_deleted false) c.

Definition forceDelete (i : string) (c : Collection)
    : option doc * Collection :=
  Mongoose.findByIdAndDelete _id i c.
End InventoryService.

(** ** Users: documents and request data *)

Module User.
Record Image := { public_id : string; url : string }.

(** [createdAt] is a date in milliseconds since the epoch, the unit of
    [Date.now()] and of the difference of two [Date]s. *)
Record VerificationCode := { code : string; createdAt : Z }.

Record doc := {
  _id : string;
  email : string;
  password : string;
  role : string;
  image : list Image;
  deleted : bool;
  verificationCode : option VerificationCode
}.

(** An update object: the schema paths it carries. *)
Record patch := {
  p_email : option string;
  p_password : option string;
  p_role : option string;
  p_image : option (list Image);
  p_deleted : option bool;
  p_verificationCode : option (option VerificationCode)
}.

Definition no_patch : patch :=
  {| p_email := None; p_password := None; p_role := None;
     p_image := None; p_deleted := None; p_verificationCode := None |}.

Definition apply_patch (p : patch) (u : doc) : doc :=
  {| _id := _id u;
     email := default (email u) (p_email p);
     password := default (password u) (p_password p);
     role := default (role u) (p_role p);
     image := default (image u) (p_image p);
     deleted := default (deleted u) (p_deleted p);
     verificationCode :=
       default (verificationCode u) (p_verificationCode p) |}.

(** [{ ...body, image: images }] *)
Definition with_image (images : list Image) (p : patch) : patch :=
  {| p_email := p_email p; p_password := p_password p;
     p_role := p_role p; p_image := Some images;
     p_deleted := p_deleted p;
     p_verificationCode := p_verificationCode p |}.

Definition public_ids (u : doc) : list string := map public_id (image u).
End User.

(** An uploaded file as multer hands it over. *)
Record File := { originalname : string; path : string }.

Record TokenPayload := { tp_id : string; tp_role : string }.
Record AccessToken := { access : string }.

(** ** Errors and responses *)

Inductive Error :=
| HttpError (status : Z) (message : string)
| ValidationError
| TypeError (property : string).

(** Modelled from the spec: [constants/index.js] is not among the sources;
    the named status codes are the HTTP codes of the error kinds NotFound,
    Unauthorized and BadRequest. *)
Module STATUSCODE.
Definition ZERO : Z := 0.
Definition BAD_REQUEST : Z := 400.
Definition UNAUTHORIZED : Z := 401.
Definition NOT_FOUND : Z := 404.
End STATUSCODE.

(** [createError(status, message)] of http-errors. *)
Definition createError (status : Z) (message : string) : Error :=
  HttpError status message.

(** [createError(message)]: without a status the error carries 500. *)
Definition createError_msg (message : string) : Error :=
  HttpError 500 message.

(** The error kinds of the specification, as the responder shows them. *)
Definition NotFound : Error :=
  createError STATUSCODE.NOT_FOUND "No User found".
Definition Unauthorized_password : Error :=
  createError STATUSCODE.UNAUTHORIZED "Password does not match".
Definition Unauthorized_session : Error :=
  createError STATUSCODE.UNAUTHORIZED "You are not logged in".
Definition BadRequest_passwords : Error :=
  createError STATUSCODE.BAD_REQUEST "Passwords are required and must match".
Definition BadRequest_code : Error :=
  createError STATUSCODE.BAD_REQUEST "Invalid verification code".
Definition RateLimited : Error :=
  createError_msg
    "Please wait 5 minutes before requesting a new verification code".
Definition Expired : Error :=
  createError_msg "Verification code has expired".

Definition is_BadRequest (e : Error) : bool :=
  match e with
  | HttpError s _ => (s =? STATUSCODE.BAD_REQUEST)%Z
  | _ => false
  end.

Inductive Payload :=
| Single (d : option User.doc)
| Array (ds : list (option User.doc)).

Record Response := {
  data : Payload;
  message : string;
  meta : option AccessToken
}.

Definition responseHandler (d : Payload) (m : string)
    (t : option AccessToken) : Response :=
  {| data := d; message := m; meta := t |}.

Inductive Result (A : Type) :=
| Ok (a : A)
| Throw (e : Error).
Arguments Ok {A} a.
Arguments Throw {A} e.

(** ** The state of the process and its collaborators *)

Inductive ImageEvent :=
| Destroy (public_id : string)
| Upload (f : File).

Record World := {
  users : list User.doc;
  savedToken : option string;
  blacklist : gset string;
  outbox : list (string * string);
  imageStore : list ImageEvent
}.

Definition set_users (c : list User.doc) (w : World) : World :=
  {| users := c; savedToken := savedToken w; blacklist := blacklist w;
     outbox := outbox w; imageStore := imageStore w |}.

Definition set_savedToken (t : option string) (w : World) : World :=
  {| users := users w; savedToken := t; blacklist := blacklist w;
     outbox := outbox w; imageStore := imageStore w |}.

Definition set_blacklist (b : gset string) (w : World) : World :=
  {| users := users w; savedToken := savedToken w; blacklist := b;
     outbox := outbox w; imageStore := imageStore w |}.

Definition set_outbox (o : list (string * string)) (w : World) : World :=
  {| users := users w; savedToken := savedToken w; blacklist := blacklist w;
     outbox := o; imageStore := imageStore w |}.

Definition set_imageStore (s : list ImageEvent) (w : World) : World :=
  {| users := users w; savedToken := savedToken w; blacklist := blacklist w;
     outbox := outbox w; imageStore := s |}.

(** External collaborators of the handlers: bcrypt, the token signer, the
    image store's upload result and the schema validators. *)
Class Collaborators := {
  bcrypt_compare : string -> string -> bool;
  bcrypt_hash : string -> string;
  generateAccess : TokenPayload -> AccessToken;
  uploaded : File -> User.Image;
  runValidators : User.patch -> bool
}.

(** A handler: state in, state and outcome out.  A thrown error keeps the
    writes made before it. *)
Definition M (A : Type) : Type := World -> World * Result A.

Definition ret {A} (a : A) : M A := fun w => (w, Ok a).
Definition throw {A} (e : Error) : M A := fun w => (w, Throw e).
Definition bind {A B} (m : M A) (k : A -> M B) : M B :=
  fun w =>
    match m w with
    | (w', Ok a) => k a w'
    | (w', Throw e) => (w', Throw e)
    end.
Definition gets {A} (f : World -> A) : M A := fun w => (w, Ok (f w)).
Definition modify (f : World -> World) : M unit := fun w => (f w, Ok tt).

Notation "x <- m ;; k" := (bind m (fun x => k))
  (at level 100, m at next level, right associativity).
Notation "m ;; k" := (bind m (fun _ => k))
  (at level 100, right associativity).

(** Reading a property of [o]: a [null] receiver raises a TypeError that
    names the property being read. *)
Definition deref {A} (property : string) (o : option A) : M A :=
  match o with
  | Some a => ret a
  | None => throw (TypeError property)
  end.

(** JavaScript truthiness of an optional string: [undefined] and the
    empty string are falsy. *)
Definition truthy (s : option string) : bool :=
  match s with
  | Some s => negb (String.eqb s "")
  | None => false
  end.

Definition str_eqb_opt (a b : option string) : bool :=
  match a, b with
  | Some x, Some y => String.eqb x y
  | None, None => true
  | _, _ => false
  end.

(** ** Inventories service: the functions that create and update *)

Module InventoryWrites.
Import Inventory.

(** [model.create([body])]: [created] is the document Mongoose builds
    from [body], with its generated [_id]; it is stored after the others
    and returned in an array of one. *)
Definition add (created : doc) (c : list doc) : list doc * list doc :=
  ([created], c ++ [created]).

(** [findByIdAndUpdate(_id, body, { new: true, runValidators: true })]:
    [valid] stands for the validators of the schema; a rejected body
    raises and writes nothing. *)
Definition update (valid : patch -> bool) (i : string) (body : patch)
    (c : list doc) : Result (option doc) * list doc :=
  if valid body then
    let r := Mongoose.findByIdAndUpdate _id true i (apply_patch body) c in
    (Ok (fst r), snd r)
  else (Throw ValidationError, c).
End InventoryWrites.

(** ** Users service *)

Module UserService.
Section Service.
Context `{Collaborators}.
Import User.

(** Modelled from the spec: [routes/v1/users/service.js] is not among
    the sources; [listActive] of section 4.1, the query of the
    inventories service. *)
Definition getAll (c : list doc) : list doc :=
  Mongoose.find (fun u => negb (deleted u)) c.

(** Modelled from the spec: [listDeleted] of the missing users service. *)
Definition getAllDeleted (c : list doc) : list doc :=
  Mongoose.find (fun u => deleted u) c.

(** Modelled from the spec: [getActiveById] of the missing users
    service, matching id and [deleted = false]. *)
Definition getById (i : string) (c : list doc) : option doc :=
  Mongoose.findOne (fun u => Mongoose.byId _id i u && negb (deleted u)) c.

(** Modelled from the spec: the missing [getEmail], which looks up the
    user by email. *)
Definition getEmail (e : string) (c : list doc) : option doc :=
  Mongoose.findOne (fun u => String.eqb (email u) e) c.

Definition has_code (v : string) (u : doc) : bool :=
  match verificationCode u with
  | Some vc => String.eqb (code vc) v
  | None => false
  end.

(** Modelled from the spec: the missing [getCode], which looks up the
    user whose stored verification code is the given one. *)
Definition getCode (v : string) (c : list doc) : option doc :=
  Mongoose.findOne (has_code v) c.

(** Modelled from the spec: the missing [update], a partial update
    validated against the schema that returns the updated record or
    not-found. *)
Definition update (i : string) (p : patch) (c : list doc)
    : Result (option doc) * list doc :=
  if runValidators p then
    let r := Mongoose.findByIdAndUpdate _id true i (apply_patch p) c in
    (Ok (fst r), snd r)
  else (Throw ValidationError, c).

(** Modelled from the spec: [hardDelete] of the missing users service,
    the query of the inventories service. *)
Definition forceDelete (i : string) (c : list doc)
    : option doc * list doc :=
  Mongoose.findByIdAndDelete _id i c.

Definition set_verificationCode (v : option VerificationCode) (u : doc)
    : doc :=
  {| _id := _id u; email := email u; password := password u;
     role := role u; image := image u; deleted := deleted u;
     verificationCode := v |}.

(** Modelled from the spec: the missing [sendEmailOTP], which stores
    [{code, createdAt}] on the record of the user with that email. *)
Definition sendEmailOTP (e otp : string) (now : Z) (c : list doc)
    : option doc * list doc :=
  match getEmail e c with
  | None => (None, c)
  | Some u =>
      Mongoose.findByIdAndUpdate _id true (_id u)
        (set_verificationCode (Some {| code := otp; createdAt := now |})) c
  end.

Definition reset_to (hash : string) (u : doc) : doc :=
  {| _id := _id u; email := email u; password := hash;
     role := role u; image := image u; deleted := deleted u;
     verificationCode := None |}.

(** Modelled from the spec: the missing [resetPassword], which
    overwrites the password hash of the user holding the code and clears
    the code; [null] when no user holds it. *)
Definition resetPassword (v newPassword : string) (c : list doc)
    : option doc * list doc :=
  match getCode v c with
  | None => (None, c)
  | Some u =>
      Mongoose.findByIdAndUpdate _id true (_id u)
        (reset_to (bcrypt_hash newPassword)) c
  end.

(** [doc.save()]: the stored document with the id of [u] becomes [u]. *)
Definition save (u : doc) (c : list doc) : list doc :=
  Mongoose.updateOne (Mongoose.byId _id (_id u)) (fun _ => u) c.

Definition set_deleted (b : bool) (u : doc) : doc :=
  {| _id := _id u; email := email u; password := password u;
     role := role u; image := image u; deleted := b;
     verificationCode := verificationCode u |}.

(** Modelled from the spec: [softDelete] of the missing users service,
    the query of the inventories service. *)
Definition deleteById (i : string) (c : list doc)
    : option doc * list doc :=
  Mongoose.findByIdAndUpdate _id false i (set_deleted true) c.

(** Modelled from the spec: [restore] of the missing users service, the
    query of the inventories service. *)
Definition restoreById (i : string) (c : list doc)
    : option doc * list doc :=
  Mongoose.findByIdAndUpdate _id false i (set_deleted false) c.

(** Modelled from the spec: [create] of the missing users service, the
    query of the inventories service; [created] is the document Mongoose
    builds from the body. *)
Definition add (created : doc) (c : list doc) : list doc * list doc :=
  ([created], c ++ [created]).

Definition set_password (hash : string) (u : doc) : doc :=
  {| _id := _id u; email := email u; password := hash;
     role := role u; image := image u; deleted := deleted u;
     verificationCode := verificationCode u |}.

(** Modelled from the spec: the missing [changePassword], which rehashes
    the new password and persists it on the user with that id. *)
Definition changePassword (i newPassword : string) (c : list doc)
    : option doc * list doc :=
  Mongoose.findByIdAndUpdate _id true i
    (set_password (bcrypt_hash newPassword)) c.
End Service.
End UserService.

(** ** Session token middleware, mailer and image helper *)

(** Modelled from the spec: [middlewares/blacklist.js] is not among the
    sources; the single-slot session token. [setToken] stores the token as
    the current one, overwriting any previous one. *)
Definition setToken (t : string) : M unit :=
  modify (set_savedToken (Some t)).

(** Modelled from the spec: the missing [getToken] reads the slot. *)
Definition getToken : M (option string) := gets savedToken.

(** Modelled from the spec: the missing [isTokenBlacklisted] tells whether
    the current token is in the blacklist set. *)
Definition isTokenBlacklisted : M bool :=
  gets (fun w =>
    match savedToken w with
    | Some t => bool_decide (t ∈ blacklist w)
    | None => false
    end).

(** Modelled from the spec: the missing [blacklistToken] adds the current
    token to the blacklist set. *)
Definition blacklistToken : M unit :=
  modify (fun w =>
    match savedToken w with
    | Some t => set_blacklist ({[ t ]} ∪ blacklist w) w
    | None => w
    end).

(** Modelled from the spec: [utils/passMailer.js] is not among the
    sources; the email dispatcher [send(to, code)]. *)
Definition sendEmail (to otp : string) : M unit :=
  modify (fun w => set_outbox (outbox w ++ [(to, otp)]) w).

(** Modelled from the spec: [utils/multipleImages.js] is not among the
    sources; the image store deletes the given public ids and uploads the
    files, returning their references. *)
Definition multipleImages `{Collaborators} (files : list File)
    (oldImagePublicIds : list string) : M (list User.Image) :=
  modify (fun w =>
    set_imageStore
      (imageStore w ++ map Destroy oldImagePublicIds ++ map Upload files) w) ;;
  ret (map uploaded files).

(** A service call on the users collection. *)
Definition service {A} (f : list User.doc -> A * list User.doc) : M A :=
  fun w => let r := f (users w) in (set_users (snd r) w, Ok (fst r)).

Definition service_try {A}
    (f : list User.doc -> Result A * list User.doc) : M A :=
  fun w => let r := f (users w) in (set_users (snd r) w, fst r).

Definition query {A} (f : list User.doc -> A) : M A :=
  gets (fun w => f (users w)).

(** The envelope of [createNewUser]: its data is the array returned by
    the service, wrapped in an array. *)
Record CreatedResponse := {
  created_data : list (list User.doc);
  created_message : string
}.

(** ** Users controller: [src/routes/v1/users/controller.js] *)

Section Controller.
Context `{Collaborators}.

Definition loginUser (email password : string) : M Response :=
  data <- query (UserService.getEmail email) ;;
  match data with
  | None => throw (createError STATUSCODE.NOT_FOUND "No User found")
  | Some data =>
      if negb (bcrypt_compare password (User.password data)) then
        throw (createError STATUSCODE.UNAUTHORIZED "Password does not match")
      else
        let accessToken :=
          generateAccess
            {| tp_id := User._id data; tp_role := User.role data |} in
        setToken (access accessToken) ;;
        ret (responseHandler (Single (Some data))
               "User Login successfully" (Some accessToken))
  end.

Definition logoutUser : M Response :=
  savedToken <- getToken ;;
  refused <- (if negb (truthy savedToken) then ret true
              else isTokenBlacklisted) ;;
  if (refused : bool) then
    throw (createError STATUSCODE.UNAUTHORIZED "You are not logged in")
  else
    blacklistToken ;;
    ret (responseHandler (Array []) "User Logout successfully" None).

Definition updateUser (id : string) (body : User.patch)
    (files : list File) : M Response :=
  oldData <- query (UserService.getById id) ;;
  uploadedImages <-
    (if (0 <? length files)%nat then
       multipleImages files
         (match oldData with
          | Some o => map User.public_id (User.image o)
          | None => []
          end)
     else
       o <- deref "image" oldData ;;
       ret (User.image o)) ;;
  data <- service_try
            (UserService.update id (User.with_image uploadedImages body)) ;;
  ret (responseHandler (Array [data]) "User updated successfully" None).

Definition forceDeleteUser (id : string) : M Response :=
  data <- service (UserService.forceDelete id) ;;
  let message :=
    match data with
    | None => "No User found"
    | Some _ => "User force deleted successfully"
    end in
  multipleImages []
    (match data with
     | Some d => map User.public_id (User.image d)
     | None => []
     end) ;;
  ret (responseHandler (Array [data]) message None).

(** [now] is the clock read by [new Date()], [otp] the value returned by
    [generateRandomCode()]. *)
Definition sendUserEmailOTP (address : string) (now : Z) (otp : string)
    : M Response :=
  email <- query (UserService.getEmail address) ;;
  user <- deref "verificationCode" email ;;
  issued <- deref "createdAt" (User.verificationCode user) ;;
  if (now - User.createdAt issued <? 5 * 60 * 1000)%Z then
    throw (createError_msg
      "Please wait 5 minutes before requesting a new verification code")
  else
    let code := otp in
    sendEmail address code ;;
    data <- service (UserService.sendEmailOTP address code now) ;;
    ret (responseHandler (Array [data]) "Email OTP sent successfully" None).

(** [now] is the clock read by [Date.now()]. *)
Definition resetUserEmailPassword (verificationCode : string)
    (newPassword confirmPassword : option string) (now : Z)
    : M Response :=
  if negb (truthy newPassword) || negb (truthy confirmPassword)
     || negb (str_eqb_opt newPassword confirmPassword) then
    throw (createError STATUSCODE.BAD_REQUEST
             "Passwords are required and must match")
  else
    code <- query (UserService.getCode verificationCode) ;;
    user <- deref "verificationCode" code ;;
    issued <- deref "createdAt" (User.verificationCode user) ;;
    if (now - User.createdAt issued >? 5 * 60 * 1000)%Z then
      modify (fun w =>
        set_users
          (UserService.save (UserService.set_verificationCode None user)
             (users w)) w) ;;
      throw (createError_msg "Verification code has expired")
    else
      data <- service
                (UserService.resetPassword verificationCode
                   (default "" newPassword)) ;;
      match data with
      | None =>
          throw (createError STATUSCODE.BAD_REQUEST
                   "Invalid verification code")
      | Some _ =>
          ret (responseHandler (Array [data])
                 "Password Successfully Reset" None)
      end.

Definition getAllUsers : M Response :=
  data <- query UserService.getAll ;;
  ret (responseHandler (Array (map Some data))
         (if (Z.of_nat (length data) =? STATUSCODE.ZERO)%Z
          then "No Users found"
          else "All Users retrieved successfully")
         None).

Definition getAllUsersDeleted : M Response :=
  data <- query UserService.getAllDeleted ;;
  ret (responseHandler (Array (map Some data))
         (if (Z.of_nat (length data) =? STATUSCODE.ZERO)%Z
          then "No Deleted Users found"
          else "All Deleted Users retrieved successfully")
         None).

Definition getSingleUser (id : string) : M Response :=
  data <- query (UserService.getById id) ;;
  ret (responseHandler (Single data)
         (match data with
          | None => "No User found"
          | Some _ => "User retrieved successfully"
          end)
         None).

(** [data?.deleted] *)
Definition flagged (data : option User.doc) : bool :=
  match data with
  | Some d => User.deleted d
  | None => false
  end.

(** [body] stands for [req.body] as the schema casts it, with the [_id]
    Mongoose generates. *)
Definition createNewUser (body : User.doc) (files : list File)
    : M CreatedResponse :=
  uploadedImages <- multipleImages files [] ;;
  let hashed := bcrypt_hash (User.password body) in
  if (Z.of_nat (length uploadedImages) =? STATUSCODE.ZERO)%Z then
    throw (createError STATUSCODE.BAD_REQUEST "Image is required")
  else
    data <- service
              (UserService.add
                 {| User._id := User._id body;
                    User.email := User.email body;
                    User.password := hashed;
                    User.role := User.role body;
                    User.image := uploadedImages;
                    User.deleted := User.deleted body;
                    User.verificationCode := User.verificationCode body |}) ;;
    ret {| created_data := [data];
           created_message := "User created successfully" |}.

Definition deleteUser (id : string) : M Response :=
  data <- service (UserService.deleteById id) ;;
  ret (responseHandler
         (if flagged data then Array [] else Array [data])
         (if flagged data then "User is already deleted"
          else "User deleted successfully")
         None).

Definition restoreUser (id : string) : M Response :=
  data <- service (UserService.restoreById id) ;;
  ret (responseHandler
         (if negb (flagged data) then Array [] else Array [data])
         (if negb (flagged data) then "User is not deleted"
          else "User restored successfully")
         None).

Definition changeUserPassword (id : string)
    (newPassword confirmPassword : option string) : M Response :=
  if negb (truthy newPassword) || negb (truthy confirmPassword) then
    throw (createError STATUSCODE.BAD_REQUEST "Both passwords are required")
  else if negb (str_eqb_opt newPassword confirmPassword) then
    throw (createError STATUSCODE.BAD_REQUEST "Passwords do not match")
  else
    data <- service
              (UserService.changePassword id (default "" newPassword)) ;;
    ret (responseHandler (Array [data]) "Password changed successfully" None).
End Controller.

(** The condition under which logout is refused: the slot holds no token
    (JavaScript falsy: nothing, or the empty string) or the held token is
    in the blacklist. *)
Definition logout_refused (w : World) : Prop :=
  truthy (savedToken w) = false \/
  exists t, savedToken w = Some t /\ t ∈ blacklist w.

(** A concrete set of collaborators, for running the handlers. *)
Definition sample : Collaborators :=
  {| bcrypt_compare := fun p h => String.eqb h ("$2b$" ++ p)%string;
     bcrypt_hash := fun p => ("$2b$" ++ p)%string;
     generateAccess := fun t =>
       {| access := ("jwt:" ++ tp_id t ++ ":" ++ tp_role t)%string |};
     uploaded := fun f =>
       {| User.public_id := originalname f; User.url := path f |};
     runValidators := fun _ => true |}.

(** A small stock: one soft-deleted and one active record. *)
Definition stock : list Inventory.doc :=
  [ {| Inventory._id := "i1"; Inventory.fields := [("name", "bolt")];
       Inventory.deleted := true |};
    {| Inventory._id := "i2"; Inventory.fields := [("name", "nut")];
       Inventory.deleted := false |} ].

(** Two registered users: Ann never asked for a code, Bob holds one
    issued at time 1000000. *)
Definition ann : User.doc :=
  {| User._id := "u1"; User.email := "ann@shop.io";
     User.password := "$2b$secret"; User.role := "Admin";
     User.image := [ {| User.public_id := "img1";
                        User.url := "cdn/img1" |} ];
     User.deleted := false; User.verificationCode := None |}.

Definition bob : User.doc :=
  {| User._id := "u2"; User.email := "bob@shop.io";
     User.password := "$2b$hunter2"; User.role := "Customer";
     User.image := [ {| User.public_id := "img2";
                        User.url := "cdn/img2" |} ];
     User.deleted := false;
     User.verificationCode :=
       Some {| User.code := "482913"; User.createdAt := 1000000 |} |}.

Definition world0 : World :=
  {| users := [ann; bob]; savedToken := None; blacklist := ∅;
     outbox := []; imageStore := [] |}.

Definition empty_world : World :=
  {| users := []; savedToken := None; blacklist := ∅;
     outbox := []; imageStore := [] |}.

(** The state after Bob has logged in. *)
Definition logged_in : World :=
  set_savedToken (Some "jwt:u2:Customer") world0.

(** A soft-deleted user, a state that holds her next to Ann and Bob, a
    registration body and an uploaded file. *)
Definition cleo : User.doc :=
  {| User._id := "u3"; User.email := "cleo@shop.io";
     User.password := "$2b$tulip"; User.role := "Customer";
     User.image := [ {| User.public_id := "img3";
                        User.url := "cdn/img3" |} ];
     User.deleted := true; User.verificationCode := None |}.

Definition world1 : World := set_users [ann; bob; cleo] world0.

Definition dora : User.doc :=
  {| User._id := "u4"; User.email := "dora@shop.io";
     User.password := "orchid"; User.role := "Customer";
     User.image := []; User.deleted := false;
     User.verificationCode := None |}.

Definition photo : File :=
  {| originalname := "face.png"; path := "uploads/face.png" |}.

(** * Properties *)

(** ** Mongoose operations *)

Section ModelFacts.
Context {D : Type}.
Variable id_of : D -> string.
Implicit Types (c : list D) (q : D -> bool) (f : D -> D) (i : string).

Lemma findOne_Some q c d :
  Mongoose.findOne q c = Some d -> In d c /\ q d = true.
Proof.
  induction c as [|x c IH]; simpl; [discriminate|].
  destruct (q x) eqn:Hx.
  - intros [= <-]. auto.
  - intros Hd. destruct (IH Hd). auto.
Qed.

Lemma findOne_None q c :
  Mongoose.findOne q c = None <-> (forall d, In d c -> q d = false).
Proof.
  induction c as [|x c IH]; simpl.
  - split; [intros _ d []|reflexivity].
  - destruct (q x) eqn:Hx.
    + split; [discriminate|]. intros Hall.
      rewrite (Hall x) in Hx by auto. discriminate.
    + rewrite IH. split.
      * intros Hall d [<-|Hd]; auto.
      * intros Hall d Hd. auto.
Qed.

Lemma find_In q c d : In d (Mongoose.find q c) <-> In d c /\ q d = true.
Proof. apply filter_In. Qed.

Lemma byId_true i d : Mongoose.byId id_of i d = true <-> id_of d = i.
Proof. apply String.eqb_eq. Qed.

Lemma byId_false i d : Mongoose.byId id_of i d = false <-> id_of d <> i.
Proof. apply String.eqb_neq. Qed.

(** A query that pins the id finds, under the primary-key index, the one
    stored document it accepts. *)
Lemma findOne_selects q c d :
  Mongoose.unique_ids id_of c -> In d c -> q d = true ->
  (forall x, q x = true -> id_of x = id_of d) ->
  Mongoose.findOne q c = Some d.
Proof.
  unfold Mongoose.unique_ids.
  induction c as [|x c IH]; simpl; [intros _ []|].
  intros Hnd Hin Hd Hq. apply List.NoDup_cons_iff in Hnd as [Hx Hnd].
  destruct Hin as [->|Hin]; [now rewrite Hd|].
  destruct (q x) eqn:E; [|auto].
  exfalso. apply Hx. rewrite (Hq x E). now apply in_map.
Qed.

Lemma same_id_same_doc c d d' :
  Mongoose.unique_ids id_of c -> In d c -> In d' c ->
  id_of d = id_of d' -> d = d'.
Proof.
  intros Hnd Hd Hd' E.
  assert (Some d = Some d') as [= ->]; [|reflexivity].
  rewrite <- (findOne_selects (Mongoose.byId id_of (id_of d)) c d),
          <- (findOne_selects (Mongoose.byId id_of (id_of d)) c d'); auto.
  - now apply byId_true.
  - intros x Hx. apply byId_true in Hx. congruence.
  - now apply byId_true.
  - intros x Hx. now apply byId_true in Hx.
Qed.

Lemma ids_find q c i :
  In i (Mongoose.ids id_of (Mongoose.find q c)) ->
  In i (Mongoose.ids id_of c).
Proof.
  unfold Mongoose.ids. rewrite !in_map_iff.
  intros (d & E & Hd). apply find_In in Hd as [Hd _]. eauto.
Qed.

(** Under the primary-key index a stored document is the one found by
    its id. *)
Lemma findOne_byId_unique c d :
  Mongoose.unique_ids id_of c -> In d c ->
  Mongoose.findOne (Mongoose.byId id_of (id_of d)) c = Some d.
Proof.
  unfold Mongoose.unique_ids.
  induction c as [|x c IH]; simpl; [intros _ []|].
  intros Hnd Hin. apply List.NoDup_cons_iff in Hnd as [Hx Hnd].
  destruct (Mongoose.byId id_of (id_of d) x) eqn:Hq.
  - destruct Hin as [->|Hin]; [reflexivity|].
    apply byId_true in Hq. exfalso. apply Hx. rewrite Hq.
    now apply in_map.
  - destruct Hin as [->|Hin]; [|auto].
    apply byId_false in Hq. congruence.
Qed.

Lemma findOne_byId_absent c i :
  ~ In i (Mongoose.ids id_of c) ->
  Mongoose.findOne (Mongoose.byId id_of i) c = None.
Proof.
  intros Hi. apply findOne_None. intros d Hd. apply byId_false.
  intros <-. apply Hi. now apply in_map.
Qed.

Lemma findOne_byId_present c i :
  In i (Mongoose.ids id_of c) ->
  exists d, Mongoose.findOne (Mongoose.byId id_of i) c = Some d.
Proof.
  intros Hi. destruct (Mongoose.findOne (Mongoose.byId id_of i) c) eqn:E.
  - eauto.
  - exfalso. apply in_map_iff in Hi as (d & <- & Hd).
    rewrite findOne_None in E. apply E in Hd.
    apply byId_false in Hd. congruence.
Qed.

Lemma updateOne_no_match q f c :
  Mongoose.findOne q c = None -> Mongoose.updateOne q f c = c.
Proof.
  induction c as [|x c IH]; simpl; [reflexivity|].
  destruct (q x); [discriminate|]. intros E. now rewrite IH.
Qed.

Lemma findByIdAndUpdate_store new i f c :
  snd (Mongoose.findByIdAndUpdate id_of new i f c)
  = Mongoose.updateOne (Mongoose.byId id_of i) f c.
Proof.
  unfold Mongoose.findByIdAndUpdate.
  destruct (Mongoose.findOne _ c) eqn:E; simpl; [reflexivity|].
  symmetry. now apply updateOne_no_match.
Qed.

Lemma ids_updateOne q f c :
  (forall d, id_of (f d) = id_of d) ->
  Mongoose.ids id_of (Mongoose.updateOne q f c) = Mongoose.ids id_of c.
Proof.
  intros Hf. unfold Mongoose.ids.
  induction c as [|x c IH]; simpl; [reflexivity|].
  destruct (q x); simpl; [now rewrite Hf|now rewrite IH].
Qed.

(** Patching twice with two patches is patching once with their
    composition, when the first patch keeps the document selected. *)
Lemma updateOne_twice q f g c :
  (forall d, q d = true -> q (f d) = true) ->
  Mongoose.updateOne q g (Mongoose.updateOne q f c)
  = Mongoose.updateOne q (fun d => g (f d)) c.
Proof.
  intros Hq. induction c as [|x c IH]; simpl; [reflexivity|].
  destruct (q x) eqn:Hx; simpl.
  - now rewrite (Hq x Hx).
  - now rewrite Hx, IH.
Qed.

Lemma updateOne_ext q f g c :
  (forall d, In d c -> q d = true -> f d = g d) ->
  Mongoose.updateOne q f c = Mongoose.updateOne q g c.
Proof.
  induction c as [|x c IH]; simpl; [reflexivity|]. intros Hfg.
  destruct (q x) eqn:Hx.
  - now rewrite Hfg by auto.
  - rewrite IH; auto.
Qed.

Lemma updateOne_id q c : Mongoose.updateOne q (fun d => d) c = c.
Proof.
  induction c as [|x c IH]; simpl; [reflexivity|].
  destruct (q x); [reflexivity|now rewrite IH].
Qed.

Lemma In_updateOne q f c x :
  In x (Mongoose.updateOne q f c) ->
  In x c \/ exists d, In d c /\ q d = true /\ x = f d.
Proof.
  induction c as [|y c IH]; simpl; [tauto|].
  destruct (q y) eqn:Hy; simpl.
  - intros [<-|Hx]; [right; exists y|left]; auto.
  - intros [<-|Hx]; [auto|].
    destruct (IH Hx) as [?|(d & ? & ? & ?)]; [auto|].
    right. exists d. auto.
Qed.

(** With unique ids, the patched collection holds the patched document
    and every other document untouched. *)
Lemma In_updateOne_byId f c d x :
  Mongoose.unique_ids id_of c -> In d c ->
  (forall y, id_of (f y) = id_of y) ->
  In x (Mongoose.updateOne (Mongoose.byId id_of (id_of d)) f c) <->
  x = f d \/ (In x c /\ id_of x <> id_of d).
Proof.
  unfold Mongoose.unique_ids. intros Hnd Hd Hf.
  induction c as [|y c IH]; simpl; [destruct Hd|].
  apply List.NoDup_cons_iff in Hnd as [Hy Hnd].
  destruct (Mongoose.byId id_of (id_of d) y) eqn:Hq.
  - apply byId_true in Hq.
    assert (y = d) as ->.
    { destruct Hd as [|Hd]; [assumption|]. exfalso. apply Hy.
      rewrite Hq. now apply in_map. }
    simpl. split.
    + intros [<-|Hx]; [auto|]. right. split; [auto|].
      intros E. apply Hy. rewrite <- E. now apply in_map.
    + intros [->|[[->|Hx] Hne]]; auto. congruence.
  - apply byId_false in Hq.
    destruct Hd as [->|Hd]; [congruence|].
    simpl. rewrite (IH Hnd Hd). split.
    + intros [<-|[->|[Hx Hne]]]; auto.
    + intros [->|[[<-|Hx] Hne]]; auto.
Qed.

Lemma deleteOne_byId_gone c i :
  Mongoose.unique_ids id_of c ->
  ~ In i (Mongoose.ids id_of (Mongoose.deleteOne (Mongoose.byId id_of i) c)).
Proof.
  unfold Mongoose.unique_ids, Mongoose.ids.
  induction c as [|y c IH]; simpl; [auto|]. intros Hnd.
  apply List.NoDup_cons_iff in Hnd as [Hy Hnd].
  destruct (Mongoose.byId id_of i y) eqn:Hq.
  - apply byId_true in Hq. now rewrite <- Hq.
  - apply byId_false in Hq. simpl. intros [E|Hin]; [auto|].
    now apply IH.
Qed.
End ModelFacts.

(** ** Inventories service *)

Section InventoryFacts.
Import Inventory InventoryService.
Implicit Types (c : Collection) (r : doc) (i : string).

Lemma set_deleted_id b r : _id (set_deleted b r) = _id r.
Proof. reflexivity. Qed.

Lemma restoreById_store i c :
  snd (restoreById i c)
  = Mongoose.updateOne (Mongoose.byId _id i) (set_deleted false) c.
Proof. apply findByIdAndUpdate_store. Qed.

Lemma deleteById_store i c :
  snd (deleteById i c)
  = Mongoose.updateOne (Mongoose.byId _id i) (set_deleted true) c.
Proof. apply findByIdAndUpdate_store. Qed.

Lemma unique_ids_patched i b c :
  Mongoose.unique_ids _id c ->
  Mongoose.unique_ids _id
    (Mongoose.updateOne (Mongoose.byId _id i) (set_deleted b) c).
Proof.
  unfold Mongoose.unique_ids. intros Hc.
  change (map _id ?l) with (Mongoose.ids _id l).
  now rewrite ids_updateOne by apply set_deleted_id.
Qed.

(** After the flag of [r] is set to [b], the active lookup by id follows
    the flag. *)
Lemma getById_patched b c r :
  Mongoose.unique_ids _id c -> In r c ->
  getById (_id r)
    (Mongoose.updateOne (Mongoose.byId _id (_id r)) (set_deleted b) c)
  = if b then None else Some (set_deleted false r).
Proof.
  intros Hc Hr. unfold getById.
  pose proof (unique_ids_patched (_id r) b c Hc) as Hc'.
  assert (Hin : forall x,
    In x (Mongoose.updateOne (Mongoose.byId _id (_id r)) (set_deleted b) c)
    <-> x = set_deleted b r \/ (In x c /\ _id x <> _id r)).
  { intros x. apply In_updateOne_byId; auto. }
  destruct b.
  - apply findOne_None. intros d Hd. apply Hin in Hd as [->|[_ Hne]].
    + simpl. apply andb_false_r.
    + apply (byId_false _id) in Hne. now rewrite Hne.
  - apply (findOne_selects _id); auto.
    + apply Hin. now left.
    + simpl. unfold Mongoose.byId. simpl. now rewrite String.eqb_refl.
    + intros x Hx. apply andb_true_iff in Hx as [Hx _].
      now apply byId_true in Hx.
Qed.

(** C1: a record whose soft-delete flag is true is absent from [getAll]
    and from [getById], while [restoreById] and [forceDelete] find it by
    its id alone: restoring returns it and leaves it active, force
    deletion returns it and removes its id from the collection. *)
Theorem soft_deleted_hidden_but_addressable c r :
  Mongoose.unique_ids _id c -> In r c -> deleted r = true ->
  ~ In r (getAll c) /\
  getById (_id r) c = None /\
  fst (restoreById (_id r) c) = Some r /\
  In (set_deleted false r) (snd (restoreById (_id r) c)) /\
  getById (_id r) (snd (restoreById (_id r) c))
    = Some (set_deleted false r) /\
  fst (forceDelete (_id r) c) = Some r /\
  ~ In (_id r) (Mongoose.ids _id (snd (forceDelete (_id r) c))).
Proof.
  intros Hc Hr Hdel.
  pose proof (findOne_byId_unique _id c r Hc Hr) as Hfind.
  repeat split.
  - unfold getAll. rewrite find_In, Hdel. intros [_ ?]. discriminate.
  - unfold getById. apply findOne_None. intros d Hd.
    destruct (Mongoose.byId _id (_id r) d) eqn:E; [|reflexivity].
    apply byId_true in E.
    rewrite (same_id_same_doc _id c d r Hc Hd Hr E), Hdel. reflexivity.
  - unfold restoreById, Mongoose.findByIdAndUpdate. now rewrite Hfind.
  - rewrite restoreById_store.
    apply (In_updateOne_byId _id); auto.
  - rewrite restoreById_store. now apply (getById_patched false).
  - unfold forceDelete, Mongoose.findByIdAndDelete. simpl. exact Hfind.
  - unfold forceDelete, Mongoose.findByIdAndDelete. simpl.
    now apply deleteOne_byId_gone.
Qed.

Lemma soft_deleted_hidden_but_addressable_witness :
  let r := {| _id := "i1"; fields := [("name", "bolt")];
              deleted := true |} in
  ~ In r (getAll stock) /\
  getById "i1" stock = None /\
  fst (restoreById "i1" stock) = Some r /\
  In (set_deleted false r) (snd (restoreById "i1" stock)) /\
  getById "i1" (snd (restoreById "i1" stock))
    = Some (set_deleted false r) /\
  fst (forceDelete "i1" stock) = Some r /\
  ~ In "i1" (Mongoose.ids _id (snd (forceDelete "i1" stock))).
Proof.
  intros r.
  apply (soft_deleted_hidden_but_addressable stock r).
  - unfold Mongoose.unique_ids. simpl.
    repeat constructor; simpl; intuition discriminate.
  - simpl. auto.
  - reflexivity.
Defined.

Lemma set_deleted_twice a b r :
  set_deleted a (set_deleted b r) = set_deleted a r.
Proof. reflexivity. Qed.

Lemma set_deleted_same r : set_deleted (deleted r) r = r.
Proof. now destruct r. Qed.

Lemma byId_set_deleted i b r :
  Mongoose.byId _id i (set_deleted b r) = Mongoose.byId _id i r.
Proof. reflexivity. Qed.

(** Setting the flag to [a] after setting it to [b] is setting it to
    [a]. *)
Lemma flag_overwrite i a b c :
  Mongoose.updateOne (Mongoose.byId _id i) (set_deleted a)
    (Mongoose.updateOne (Mongoose.byId _id i) (set_deleted b) c)
  = Mongoose.updateOne (Mongoose.byId _id i) (set_deleted a) c.
Proof.
  rewrite updateOne_twice.
  - apply updateOne_ext. intros d _ _. apply set_deleted_twice.
  - intros d Hd. now rewrite byId_set_deleted.
Qed.

(** Where a record with id [i] is stored, the listings after its flag is
    set to [b] show [i] on the side of [b] only. *)
Lemma listings_patched b c r :
  Mongoose.unique_ids _id c -> In r c ->
  let c' := Mongoose.updateOne (Mongoose.byId _id (_id r))
              (set_deleted b) c in
  (In (_id r) (Mongoose.ids _id (getAll c')) <-> b = false) /\
  (In (_id r) (Mongoose.ids _id (getAllDeleted c')) <-> b = true).
Proof.
  intros Hc Hr c'.
  assert (Hin : forall x,
    In x c' <-> x = set_deleted b r \/ (In x c /\ _id x <> _id r)).
  { intros x. apply In_updateOne_byId; auto. }
  unfold getAll, getAllDeleted, Mongoose.ids.
  split; rewrite in_map_iff; split.
  - intros (d & E & Hd). apply find_In in Hd as [Hd Hflag].
    apply Hin in Hd as [->|[_ Hne]]; [|congruence].
    simpl in Hflag. now destruct b.
  - intros ->. exists (set_deleted false r). split; [reflexivity|].
    apply find_In. split; [|reflexivity]. apply Hin. now left.
  - intros (d & E & Hd). apply find_In in Hd as [Hd Hflag].
    apply Hin in Hd as [->|[_ Hne]]; [|congruence].
    exact Hflag.
  - intros ->. exists (set_deleted true r). split; [reflexivity|].
    apply find_In. split; [|reflexivity]. apply Hin. now left.
Qed.

(** C6, as stated, fails on a record that is already soft-deleted: the
    stock holds "i1" with its flag set, and soft-deleting then restoring
    it leaves a different collection. *)
Lemma restore_after_delete_not_exact :
  In "i1" (Mongoose.ids _id stock) /\
  snd (restoreById "i1" (snd (deleteById "i1" stock))) <> stock.
Proof.
  split; [simpl; auto|].
  vm_compute. intros E. inversion E.
Qed.

(** C6 (amended): [deleteById] and [restoreById] are idempotent on the
    collection; for a stored record, after [deleteById] the active
    listing excludes its id and the deleted listing includes it, after
    a following [restoreById] the active listing includes it and the
    deleted listing excludes it, and when the record was active before
    the soft delete the collection is exactly the one before it. *)
Theorem soft_delete_restore_lifecycle c i :
  snd (deleteById i (snd (deleteById i c))) = snd (deleteById i c) /\
  snd (restoreById i (snd (restoreById i c))) = snd (restoreById i c) /\
  (Mongoose.unique_ids _id c ->
   forall r, In r c -> _id r = i ->
     let c1 := snd (deleteById i c) in
     let c2 := snd (restoreById i c1) in
     ~ In i (Mongoose.ids _id (getAll c1)) /\
     In i (Mongoose.ids _id (getAllDeleted c1)) /\
     In i (Mongoose.ids _id (getAll c2)) /\
     ~ In i (Mongoose.ids _id (getAllDeleted c2)) /\
     (deleted r = false -> c2 = c)).
Proof.
  rewrite !deleteById_store, !restoreById_store.
  split; [apply flag_overwrite|]. split; [apply flag_overwrite|].
  intros Hc r Hr <-. cbv zeta.
  rewrite ?restoreById_store, ?deleteById_store, flag_overwrite.
  destruct (listings_patched true c r Hc Hr) as [Ha1 Hd1].
  destruct (listings_patched false c r Hc Hr) as [Ha2 Hd2].
  cbv zeta in Ha1, Hd1, Ha2, Hd2.
  repeat split.
  - rewrite Ha1. discriminate.
  - now apply Hd1.
  - now apply Ha2.
  - rewrite Hd2. discriminate.
  - intros Hflag.
    rewrite (updateOne_ext _ _ (fun d => d)); [apply updateOne_id|].
    intros d Hd Hq. apply byId_true in Hq.
    rewrite (same_id_same_doc _id c d r Hc Hd Hr Hq), <- Hflag.
    apply set_deleted_same.
Qed.

Lemma soft_delete_restore_lifecycle_witness :
  let c1 := snd (deleteById "i2" stock) in
  let c2 := snd (restoreById "i2" c1) in
  ~ In "i2" (Mongoose.ids _id (getAll c1)) /\
  In "i2" (Mongoose.ids _id (getAllDeleted c1)) /\
  In "i2" (Mongoose.ids _id (getAll c2)) /\
  ~ In "i2" (Mongoose.ids _id (getAllDeleted c2)) /\
  (false = false -> c2 = stock).
Proof.
  refine (proj2 (proj2 (soft_delete_restore_lifecycle stock "i2")) _
            {| _id := "i2"; fields := [("name", "nut")];
               deleted := false |} _ _).
  - unfold Mongoose.unique_ids. simpl.
    repeat constructor; simpl; intuition discriminate.
  - simpl. auto.
  - reflexivity.
Defined.

(** C7: after [forceDelete] of an id, the id is in neither the active
    listing nor the deleted listing, and [getById] finds nothing. *)
Theorem force_deleted_is_gone c i :
  Mongoose.unique_ids _id c ->
  let c' := snd (forceDelete i c) in
  ~ In i (Mongoose.ids _id (getAll c')) /\
  ~ In i (Mongoose.ids _id (getAllDeleted c')) /\
  getById i c' = None.
Proof.
  intros Hc c'.
  assert (Hgone : ~ In i (Mongoose.ids _id c')).
  { now apply deleteOne_byId_gone. }
  repeat split.
  - intros Hi. apply Hgone. now apply ids_find in Hi.
  - intros Hi. apply Hgone. now apply ids_find in Hi.
  - unfold getById. apply findOne_None. intros d Hd.
    destruct (Mongoose.byId _id i d) eqn:E; [|reflexivity].
    exfalso. apply Hgone. apply byId_true in E. rewrite <- E.
    now apply in_map.
Qed.

Lemma force_deleted_is_gone_witness :
  let c' := snd (forceDelete "i1" stock) in
  ~ In "i1" (Mongoose.ids _id (getAll c')) /\
  ~ In "i1" (Mongoose.ids _id (getAllDeleted c')) /\
  getById "i1" c' = None.
Proof.
  apply (force_deleted_is_gone stock "i1").
  unfold Mongoose.unique_ids. simpl.
  repeat constructor; simpl; intuition discriminate.
Defined.
End InventoryFacts.

(** ** Users controller *)

Ltac run :=
  unfold bind, ret, throw, gets, modify, query, service, service_try,
    deref, getToken, setToken, isTokenBlacklisted, blacklistToken,
    sendEmail; simpl.

Section ControllerFacts.
Context `{Collaborators}.
Import User.

Lemma getEmail_None e (c : list doc) :
  UserService.getEmail e c = None <->
  (forall u, In u c -> email u <> e).
Proof.
  unfold UserService.getEmail. rewrite findOne_None.
  split; intros Hall u Hu; specialize (Hall u Hu);
    now apply String.eqb_neq.
Qed.

Lemma getEmail_Some e (c : list doc) u :
  UserService.getEmail e c = Some u -> In u c /\ email u = e.
Proof.
  intros Hu. apply findOne_Some in Hu as [Hin Hu].
  now apply String.eqb_eq in Hu.
Qed.

(** C2: [loginUser] fails with NotFound exactly when no user has the
    email; when the lookup finds a user and the password does not match
    the stored hash it fails with Unauthorized; when it matches, the
    response carries the access token generated for the id and role of
    that user and the token slot holds that token, whatever it held
    before, the rest of the state being as it was. *)
Theorem login_outcomes address pass (w : World) :
  ((forall u, In u (users w) -> email u <> address) ->
     loginUser address pass w = (w, Throw NotFound)) /\
  ((exists u, In u (users w) /\ email u = address) ->
     exists u, UserService.getEmail address (users w) = Some u) /\
  (forall u, UserService.getEmail address (users w) = Some u ->
     In u (users w) /\ email u = address /\
     (bcrypt_compare pass (password u) = false ->
        loginUser address pass w = (w, Throw Unauthorized_password)) /\
     (bcrypt_compare pass (password u) = true ->
        let t := generateAccess {| tp_id := _id u; tp_role := role u |} in
        loginUser address pass w
        = (set_savedToken (Some (access t)) w,
           Ok (responseHandler (Single (Some u))
                 "User Login successfully" (Some t))))).
Proof.
  split; [|split].
  - intros Hnone. apply getEmail_None in Hnone.
    unfold loginUser. run. now rewrite Hnone.
  - intros (u & Hin & He).
    destruct (UserService.getEmail address (users w)) eqn:E; [eauto|].
    rewrite getEmail_None in E. now apply E in Hin.
  - intros u Hu. destruct (getEmail_Some _ _ _ Hu) as [Hin He].
    repeat split; auto.
    + intros Hpw. unfold loginUser. run. now rewrite Hu, Hpw.
    + intros Hpw. unfold loginUser. run. now rewrite Hu, Hpw.
Qed.

(** The two ways [logoutUser] runs. *)
Lemma logoutUser_run (w : World) :
  (logout_refused w /\ logoutUser w = (w, Throw Unauthorized_session)) \/
  (exists t, savedToken w = Some t /\ ~ logout_refused w /\
     logoutUser w
     = (set_blacklist ({[ t ]} ∪ blacklist w) w,
        Ok (responseHandler (Array []) "User Logout successfully" None))).
Proof.
  unfold logout_refused, logoutUser. run.
  destruct (savedToken w) as [t|] eqn:Ht; simpl; [|auto].
  destruct (String.eqb t "") eqn:Et; simpl; [auto|].
  rewrite Ht.
  destruct (bool_decide (t ∈ blacklist w)) eqn:Hb.
  - apply bool_decide_eq_true in Hb. left. split; [|reflexivity].
    right. eauto.
  - apply bool_decide_eq_false in Hb. right. exists t.
    rewrite Ht. repeat split.
    intros [?|(t' & [= <-] & ?)]; [discriminate|contradiction].
Qed.

(** C3: [logoutUser] fails with Unauthorized if and only if no session
    token is stored or the stored token is in the blacklist, and then
    changes nothing; otherwise it adds the stored token to the
    blacklist and leaves the token slot and the rest of the state as
    they were. *)
Theorem logout_outcomes (w : World) :
  (snd (logoutUser w) = Throw Unauthorized_session <-> logout_refused w) /\
  (logout_refused w -> logoutUser w = (w, Throw Unauthorized_session)) /\
  (~ logout_refused w ->
     exists t, savedToken w = Some t /\
       logoutUser w
       = (set_blacklist ({[ t ]} ∪ blacklist w) w,
          Ok (responseHandler (Array []) "User Logout successfully" None))).
Proof.
  destruct (logoutUser_run w) as [[Hr ->]|(t & Ht & Hn & ->)]; simpl.
  - repeat split; auto. intros Hn. contradiction.
  - split; [|split].
    + split; [discriminate|contradiction].
    + contradiction.
    + eauto.
Qed.

(** C8 (amended): a wrong password against a registered email fails with
    Unauthorized, a login with an email no user has fails with NotFound,
    and the two error responses differ. *)
Theorem login_wrong_password_vs_unknown_email address pass
    (w w' : World) u :
  UserService.getEmail address (users w) = Some u ->
  bcrypt_compare pass (password u) = false ->
  (forall u', In u' (users w') -> email u' <> address) ->
  snd (loginUser address pass w) = Throw Unauthorized_password /\
  snd (loginUser address pass w') = Throw NotFound /\
  snd (loginUser address pass w) <> snd (loginUser address pass w').
Proof.
  intros Hu Hpw Hnone. apply getEmail_None in Hnone.
  unfold loginUser. run. rewrite Hu, Hpw, Hnone. simpl.
  repeat split. discriminate.
Qed.

(** *** Images on update and force delete *)

Lemma findOne_updateOne_byId i (f : doc -> doc) (c : list doc) :
  (forall d, _id (f d) = _id d) ->
  Mongoose.findOne (Mongoose.byId _id i)
    (Mongoose.updateOne (Mongoose.byId _id i) f c)
  = option_map f (Mongoose.findOne (Mongoose.byId _id i) c).
Proof.
  intros Hf. induction c as [|x c IH]; simpl; [reflexivity|].
  destruct (Mongoose.byId _id i x) eqn:Hx; simpl.
  - unfold Mongoose.byId in *. now rewrite Hf, Hx.
  - now rewrite Hx.
Qed.

Lemma getById_stored (c : list doc) u :
  Mongoose.unique_ids _id c -> In u c ->
  UserService.getById (_id u) c = if deleted u then None else Some u.
Proof.
  intros Hc Hu. unfold UserService.getById.
  destruct (deleted u) eqn:Hdel.
  - apply findOne_None. intros d Hd.
    destruct (Mongoose.byId _id (_id u) d) eqn:E; [|reflexivity].
    apply byId_true in E.
    rewrite (same_id_same_doc _id c d u Hc Hd Hu E), Hdel. reflexivity.
  - apply (findOne_selects _id); auto.
    + rewrite Hdel. unfold Mongoose.byId. now rewrite String.eqb_refl.
    + intros x Hx. apply andb_true_iff in Hx as [Hx _].
      now apply byId_true in Hx.
Qed.

(** C9: an update that carries no new file leaves the image references
    of the stored user as they were and touches nothing in the image
    store; a force delete hands the image store exactly the public ids
    of the record it removed. *)
Theorem images_kept_on_update_released_on_force_delete
    i body (w : World) u :
  Mongoose.unique_ids _id (users w) -> In u (users w) -> _id u = i ->
  (exists u',
     Mongoose.findOne (Mongoose.byId _id i)
       (users (fst (updateUser i body [] w))) = Some u' /\
     image u' = image u) /\
  imageStore (fst (updateUser i body [] w)) = imageStore w /\
  fst (UserService.forceDelete i (users w)) = Some u /\
  imageStore (fst (forceDeleteUser i w))
    = imageStore w ++ map Destroy (public_ids u).
Proof.
  intros Hc Hu <-.
  pose proof (findOne_byId_unique _id _ u Hc Hu) as Hfind.
  assert (Hupd :
    (exists u',
       Mongoose.findOne (Mongoose.byId _id (_id u))
         (users (fst (updateUser (_id u) body [] w))) = Some u' /\
       image u' = image u) /\
    imageStore (fst (updateUser (_id u) body [] w)) = imageStore w).
  { unfold updateUser. run. rewrite (getById_stored _ u Hc Hu).
    destruct (deleted u); simpl; [eauto|].
    unfold UserService.update.
    destruct (runValidators (with_image (image u) body)); simpl;
      [|eauto].
    rewrite findByIdAndUpdate_store, findOne_updateOne_byId, Hfind
      by reflexivity.
    simpl. eauto. }
  destruct Hupd as [Himg Hstore].
  repeat split; auto.
  unfold forceDeleteUser, multipleImages. run.
  unfold UserService.forceDelete, Mongoose.findByIdAndDelete. simpl.
  rewrite Hfind. simpl. now rewrite app_nil_r.
Qed.

(** *** One-time codes *)

(** C10: when the email lookup finds no user, or finds a user without a
    verification code record, [sendUserEmailOTP] stops on the read of
    [verificationCode.createdAt] with a TypeError: it neither succeeds
    nor fails with NotFound or RateLimited, and nothing is sent or
    stored. *)
Theorem otp_request_null_dereference address now otp (w : World) :
  (UserService.getEmail address (users w) = None ->
     sendUserEmailOTP address now otp w
     = (w, Throw (TypeError "verificationCode"))) /\
  (forall u, UserService.getEmail address (users w) = Some u ->
     verificationCode u = None ->
     sendUserEmailOTP address now otp w
     = (w, Throw (TypeError "createdAt"))) /\
  (forall property,
     Throw (A := Response) (TypeError property) <> Throw NotFound /\
     Throw (A := Response) (TypeError property) <> Throw RateLimited).
Proof.
  unfold sendUserEmailOTP. run. repeat split.
  - now intros ->.
  - intros u -> Hv. simpl. now rewrite Hv.
  - discriminate.
  - discriminate.
Qed.

Lemma sendUserEmailOTP_rate_limited address now otp (w : World) u vc :
  UserService.getEmail address (users w) = Some u ->
  verificationCode u = Some vc ->
  (now - createdAt vc < 5 * 60 * 1000)%Z ->
  sendUserEmailOTP address now otp w = (w, Throw RateLimited).
Proof.
  intros Hu Hv Hlt. apply Z.ltb_lt in Hlt.
  unfold sendUserEmailOTP. run. rewrite Hu. simpl.
  rewrite Hv. simpl. now rewrite Hlt.
Qed.

Lemma sendUserEmailOTP_issues address now otp (w : World) u vc :
  UserService.getEmail address (users w) = Some u ->
  verificationCode u = Some vc ->
  (5 * 60 * 1000 <= now - createdAt vc)%Z ->
  let r := UserService.sendEmailOTP address otp now (users w) in
  sendUserEmailOTP address now otp w
  = (set_users (snd r) (set_outbox (outbox w ++ [(address, otp)]) w),
     Ok (responseHandler (Array [fst r])
           "Email OTP sent successfully" None)).
Proof.
  intros Hu Hv Hge. apply Z.ltb_ge in Hge.
  unfold sendUserEmailOTP. run. rewrite Hu. simpl.
  rewrite Hv. simpl. now rewrite Hge.
Qed.

Lemma reset_passwords_rejected v p q now (w : World) :
  truthy p = false \/ truthy q = false \/ p <> q ->
  resetUserEmailPassword v p q now w = (w, Throw BadRequest_passwords).
Proof.
  intros Hbad. unfold resetUserEmailPassword.
  assert (negb (truthy p) || negb (truthy q) || negb (str_eqb_opt p q)
          = true) as ->; [|reflexivity].
  destruct Hbad as [->|[->|Hne]]; simpl; rewrite ?orb_true_r; auto.
  destruct p as [x|], q as [y|]; simpl; rewrite ?orb_true_r; auto;
    try congruence.
  destruct (String.eqb x y) eqn:E; simpl; rewrite ?orb_true_r; auto.
  apply String.eqb_eq in E. congruence.
Qed.

Lemma reset_unknown_code v p now (w : World) :
  truthy (Some p) = true ->
  UserService.getCode v (users w) = None ->
  resetUserEmailPassword v (Some p) (Some p) now w
  = (w, Throw (TypeError "verificationCode")).
Proof.
  intros Hp Hnone. unfold resetUserEmailPassword.
  rewrite Hp. simpl. rewrite String.eqb_refl. run. now rewrite Hnone.
Qed.

Lemma reset_expired v p now (w : World) u vc :
  truthy (Some p) = true ->
  UserService.getCode v (users w) = Some u ->
  verificationCode u = Some vc ->
  (now - createdAt vc > 5 * 60 * 1000)%Z ->
  resetUserEmailPassword v (Some p) (Some p) now w
  = (set_users
       (UserService.save (UserService.set_verificationCode None u)
          (users w)) w,
     Throw Expired).
Proof.
  intros Hp Hu Hv Hgt. apply Z.gtb_gt in Hgt.
  unfold resetUserEmailPassword.
  rewrite Hp. simpl. rewrite String.eqb_refl. run. rewrite Hu. simpl.
  rewrite Hv. simpl. now rewrite Hgt.
Qed.

Lemma reset_succeeds v p now (w : World) u vc :
  Mongoose.unique_ids _id (users w) ->
  truthy (Some p) = true ->
  UserService.getCode v (users w) = Some u ->
  verificationCode u = Some vc ->
  (now - createdAt vc <= 5 * 60 * 1000)%Z ->
  let u' := UserService.reset_to (bcrypt_hash p) u in
  resetUserEmailPassword v (Some p) (Some p) now w
  = (set_users
       (Mongoose.updateOne (Mongoose.byId _id (_id u))
          (UserService.reset_to (bcrypt_hash p)) (users w)) w,
     Ok (responseHandler (Array [Some u'])
           "Password Successfully Reset" None)).
Proof.
  intros Hc Hp Hu Hv Hle.
  assert ((now - createdAt vc >? 5 * 60 * 1000)%Z = false) as Hgt.
  { rewrite Z.gtb_ltb. apply Z.ltb_ge. exact Hle. }
  destruct (findOne_Some _ _ _ Hu) as [Hin _].
  pose proof (findOne_byId_unique _id _ u Hc Hin) as Hd.
  unfold resetUserEmailPassword.
  rewrite Hp. simpl. rewrite String.eqb_refl. run. rewrite Hu. simpl.
  rewrite Hv. simpl. rewrite Hgt.
  unfold UserService.resetPassword. rewrite Hu.
  unfold Mongoose.findByIdAndUpdate. rewrite Hd. reflexivity.
Qed.
End ControllerFacts.

(** ** The handlers on the sample state *)

Lemma login_outcomes_witness :
  let t := {| access := "jwt:u2:Customer" |} in
  @loginUser sample "bob@shop.io" "hunter2" world0
  = (set_savedToken (Some (access t)) world0,
     Ok (responseHandler (Single (Some bob))
           "User Login successfully" (Some t))).
Proof.
  exact (proj2 (proj2 (proj2
           (proj2 (proj2
                     (@login_outcomes sample "bob@shop.io" "hunter2" world0))
              bob eq_refl))) eq_refl).
Defined.

Lemma logout_outcomes_witness :
  exists t, savedToken logged_in = Some t /\
    logoutUser logged_in
    = (set_blacklist ({[ t ]} ∪ blacklist logged_in) logged_in,
       Ok (responseHandler (Array []) "User Logout successfully" None)).
Proof.
  apply (proj2 (proj2 (logout_outcomes logged_in))).
  intros [Hfalsy|(t & _ & Ht)]; [discriminate Hfalsy|].
  simpl in Ht. set_solver.
Defined.

(** C8, as stated, fails: with the same email and password, the run in
    which Ann is registered answers 401 "Password does not match" and the
    run in which nobody is registered answers 404 "No User found". *)
Lemma login_error_reveals_registration :
  snd (@loginUser sample "ann@shop.io" "guess" world0)
    = Throw Unauthorized_password /\
  snd (@loginUser sample "ann@shop.io" "guess" empty_world)
    = Throw NotFound /\
  snd (@loginUser sample "ann@shop.io" "guess" world0)
    <> snd (@loginUser sample "ann@shop.io" "guess" empty_world).
Proof. repeat split. discriminate. Qed.

Lemma login_wrong_password_vs_unknown_email_witness :
  snd (@loginUser sample "ann@shop.io" "guess" world0)
    = Throw Unauthorized_password /\
  snd (@loginUser sample "ann@shop.io" "guess" empty_world)
    = Throw NotFound /\
  snd (@loginUser sample "ann@shop.io" "guess" world0)
    <> snd (@loginUser sample "ann@shop.io" "guess" empty_world).
Proof.
  apply (@login_wrong_password_vs_unknown_email sample
           "ann@shop.io" "guess" world0 empty_world ann).
  - reflexivity.
  - reflexivity.
  - simpl. intros u' [].
Defined.

Lemma images_kept_on_update_released_on_force_delete_witness :
  (exists u',
     Mongoose.findOne (Mongoose.byId User._id "u1")
       (users (fst (@updateUser sample "u1" User.no_patch [] world0)))
     = Some u' /\
     User.image u' = User.image ann) /\
  imageStore (fst (@updateUser sample "u1" User.no_patch [] world0))
    = imageStore world0 /\
  fst (UserService.forceDelete "u1" (users world0)) = Some ann /\
  imageStore (fst (@forceDeleteUser sample "u1" world0))
    = imageStore world0 ++ map Destroy (User.public_ids ann).
Proof.
  apply (@images_kept_on_update_released_on_force_delete sample
           "u1" User.no_patch world0 ann).
  - unfold Mongoose.unique_ids. simpl.
    repeat constructor; simpl; intuition discriminate.
  - simpl. auto.
  - reflexivity.
Defined.

Lemma otp_request_null_dereference_witness :
  sendUserEmailOTP "eve@shop.io" 2000000 "111111" world0
    = (world0, Throw (TypeError "verificationCode")) /\
  sendUserEmailOTP "ann@shop.io" 2000000 "111111" world0
    = (world0, Throw (TypeError "createdAt")).
Proof.
  split.
  - apply (proj1 (otp_request_null_dereference
                    "eve@shop.io" 2000000 "111111" world0)).
    reflexivity.
  - apply (proj1 (proj2 (otp_request_null_dereference
                           "ann@shop.io" 2000000 "111111" world0)) ann);
      reflexivity.
Defined.

(** C5 on the code: Ann is registered and was never issued a code, so no
    code was issued to her within the last five minutes; her request
    does not generate, store or send a code but stops with a TypeError.
    Bob, whose code is older than five minutes, is served. *)
Theorem otp_first_request_stops :
  UserService.getEmail "ann@shop.io" (users world0) = Some ann /\
  User.verificationCode ann = None /\
  sendUserEmailOTP "ann@shop.io" 2000000 "111111" world0
    = (world0, Throw (TypeError "createdAt")) /\
  snd (sendUserEmailOTP "bob@shop.io" 2000000 "111111" world0)
    = Ok (responseHandler
            (Array [Some (UserService.set_verificationCode
                            (Some {| User.code := "111111";
                                     User.createdAt := 2000000 |}) bob)])
            "Email OTP sent successfully" None).
Proof. repeat split. Qed.

(** C4 on the code: with matching passwords, a code that no user holds
    stops [resetUserEmailPassword] with a TypeError, not with BadRequest;
    Bob's code, presented more than five minutes after it was issued,
    fails with Expired and is cleared, and presenting it again stops with
    the same TypeError. *)
Theorem reset_unknown_code_stops :
  UserService.getCode "000000" (users world0) = None /\
  @resetUserEmailPassword sample "000000" (Some "fresh") (Some "fresh")
     1000001 world0
    = (world0, Throw (TypeError "verificationCode")) /\
  is_BadRequest (TypeError "verificationCode") = false /\
  let first :=
    @resetUserEmailPassword sample "482913" (Some "fresh") (Some "fresh")
      2000000 world0 in
  snd first = Throw Expired /\
  users (fst first)
    = [ann; UserService.set_verificationCode None bob] /\
  snd (@resetUserEmailPassword sample "482913" (Some "fresh")
         (Some "fresh") 2000001 (fst first))
    = Throw (TypeError "verificationCode").
Proof. repeat split. Qed.

(** * Further properties of the service and the handlers *)

(** ** Mongoose operations: frames and absent ids *)

Section ModelFrames.
Context {D : Type}.
Variable id_of : D -> string.
Implicit Types (c : list D) (p q : D -> bool) (f : D -> D) (i : string).

Lemma deleteOne_no_match q c :
  Mongoose.findOne q c = None -> Mongoose.deleteOne q c = c.
Proof.
  induction c as [|x c IH]; simpl; [reflexivity|].
  destruct (q x); [discriminate|]. intros E. now rewrite IH.
Qed.

(** A query that rejects the selected document before and after the
    patch does not see the write. *)
Lemma findOne_updateOne_frame p q f c :
  (forall d, p d = true -> q d = false /\ q (f d) = false) ->
  Mongoose.findOne q (Mongoose.updateOne p f c) = Mongoose.findOne q c.
Proof.
  intros Hpq. induction c as [|x c IH]; simpl; [reflexivity|].
  destruct (p x) eqn:Hp; simpl.
  - destruct (Hpq x Hp) as [-> ->]. reflexivity.
  - now rewrite IH.
Qed.

Lemma findOne_deleteOne_frame p q c :
  (forall d, p d = true -> q d = false) ->
  Mongoose.findOne q (Mongoose.deleteOne p c) = Mongoose.findOne q c.
Proof.
  intros Hpq. induction c as [|x c IH]; simpl; [reflexivity|].
  destruct (p x) eqn:Hp; simpl.
  - now rewrite (Hpq x Hp).
  - now rewrite IH.
Qed.

Lemma In_updateOne_frame p f c x :
  (forall d, p d = true -> p (f d) = true) -> p x = false ->
  In x (Mongoose.updateOne p f c) <-> In x c.
Proof.
  intros Hp Hx. induction c as [|y c IH]; simpl; [tauto|].
  destruct (p y) eqn:Hy; simpl.
  - split; intros [E|Hin]; auto; exfalso; subst.
    + rewrite (Hp y Hy) in Hx. discriminate.
    + congruence.
  - rewrite IH. tauto.
Qed.

Lemma In_deleteOne_frame p c x :
  p x = false -> In x (Mongoose.deleteOne p c) <-> In x c.
Proof.
  intros Hx. induction c as [|y c IH]; simpl; [tauto|].
  destruct (p y) eqn:Hy; simpl.
  - split; [auto|]. intros [E|Hin]; [congruence|assumption].
  - rewrite IH. tauto.
Qed.

Lemma ids_deleteOne_incl q c i :
  In i (Mongoose.ids id_of (Mongoose.deleteOne q c)) ->
  In i (Mongoose.ids id_of c).
Proof.
  unfold Mongoose.ids. induction c as [|y c IH]; simpl; [tauto|].
  destruct (q y); simpl; [auto|]. intros [E|Hin]; auto.
Qed.

Lemma unique_ids_deleteOne q c :
  Mongoose.unique_ids id_of c ->
  Mongoose.unique_ids id_of (Mongoose.deleteOne q c).
Proof.
  unfold Mongoose.unique_ids. induction c as [|y c IH]; simpl; [auto|].
  intros Hnd. apply List.NoDup_cons_iff in Hnd as [Hy Hnd].
  destruct (q y); simpl; [assumption|].
  apply List.NoDup_cons; [|auto].
  intros Hin. apply Hy. now apply (ids_deleteOne_incl q).
Qed.

Lemma unique_ids_updateOne q f c :
  (forall d, id_of (f d) = id_of d) ->
  Mongoose.unique_ids id_of c ->
  Mongoose.unique_ids id_of (Mongoose.updateOne q f c).
Proof.
  unfold Mongoose.unique_ids. intros Hf Hc.
  change (map id_of ?l) with (Mongoose.ids id_of l).
  now rewrite ids_updateOne.
Qed.

Lemma unique_ids_append c d :
  Mongoose.unique_ids id_of c -> ~ In (id_of d) (Mongoose.ids id_of c) ->
  Mongoose.unique_ids id_of (c ++ [d]).
Proof.
  unfold Mongoose.unique_ids, Mongoose.ids. intros Hc Hd.
  rewrite map_app. simpl.
  induction (map id_of c) as [|y l IH]; simpl.
  - repeat constructor. simpl. tauto.
  - apply List.NoDup_cons_iff in Hc as [Hy Hc].
    apply List.NoDup_cons.
    + rewrite in_app_iff. simpl. intros [?|[E|[]]]; [auto|].
      apply Hd. now left.
    + apply IH; [assumption|]. intros Hin. apply Hd. now right.
Qed.

Lemma findOne_append q c d :
  Mongoose.findOne q (c ++ [d])
  = match Mongoose.findOne q c with
    | Some x => Some x
    | None => if q d then Some d else None
    end.
Proof.
  induction c as [|x c IH]; simpl; [reflexivity|].
  destruct (q x); [reflexivity|assumption].
Qed.

(** The document found by id after a patch by id is the patched one. *)
Lemma findOne_byId_updateOne i f c :
  (forall d, id_of (f d) = id_of d) ->
  Mongoose.findOne (Mongoose.byId id_of i)
    (Mongoose.updateOne (Mongoose.byId id_of i) f c)
  = option_map f (Mongoose.findOne (Mongoose.byId id_of i) c).
Proof.
  intros Hf. induction c as [|x c IH]; simpl; [reflexivity|].
  destruct (Mongoose.byId id_of i x) eqn:Hx; simpl.
  - unfold Mongoose.byId in *. now rewrite Hf, Hx.
  - now rewrite Hx.
Qed.

Lemma findByIdAndUpdate_absent new i f c :
  ~ In i (Mongoose.ids id_of c) ->
  Mongoose.findByIdAndUpdate id_of new i f c = (None, c).
Proof.
  intros Hi. unfold Mongoose.findByIdAndUpdate.
  now rewrite (findOne_byId_absent id_of c i Hi).
Qed.

Lemma findByIdAndDelete_absent i c :
  ~ In i (Mongoose.ids id_of c) ->
  Mongoose.findByIdAndDelete id_of i c = (None, c).
Proof.
  intros Hi. unfold Mongoose.findByIdAndDelete.
  pose proof (findOne_byId_absent id_of c i Hi) as E.
  now rewrite E, (deleteOne_no_match _ _ E).
Qed.
End ModelFrames.

(** ** Inventories service: listings, absent ids, frames *)

Section InventoryMore.
Import Inventory InventoryService InventoryWrites.
Implicit Types (c : list doc) (r d : doc) (i j : string).

Lemma stock_unique : Mongoose.unique_ids _id stock.
Proof.
  unfold Mongoose.unique_ids. simpl.
  repeat constructor; simpl; intuition discriminate.
Qed.

(** X1: [getAll] and [getAllDeleted] split the collection: together they
    hold every document exactly once, the first only documents with the
    flag off, the second only documents with the flag on. *)
Theorem listings_partition c :
  Permutation (getAll c ++ getAllDeleted c) c /\
  Forall (fun d => deleted d = false) (getAll c) /\
  Forall (fun d => deleted d = true) (getAllDeleted c) /\
  length (getAll c) + length (getAllDeleted c) = length c.
Proof.
  unfold getAll, getAllDeleted, Mongoose.find. repeat split.
  - induction c as [|x c IH]; simpl; [constructor|].
    destruct (deleted x); simpl.
    + apply Permutation_sym, Permutation_cons_app, Permutation_sym, IH.
    + now constructor.
  - apply List.Forall_forall. intros d Hd. apply filter_In in Hd as [_ Hd].
    now destruct (deleted d).
  - apply List.Forall_forall. intros d Hd. now apply filter_In in Hd as [_ Hd].
  - induction c as [|x c IH]; simpl; [reflexivity|].
    destruct (deleted x); simpl; lia.
Qed.

(** X2: under the primary-key index, [getById] returns a document exactly
    when that document is in [getAll] and has the id. *)
Theorem getById_iff_listed c i d :
  Mongoose.unique_ids _id c ->
  getById i c = Some d <-> In d (getAll c) /\ _id d = i.
Proof.
  intros Hc. unfold getById, getAll. rewrite find_In. split.
  - intros Hd. apply findOne_Some in Hd as [Hin Hq].
    apply andb_true_iff in Hq as [Hi Hflag].
    apply byId_true in Hi. auto.
  - intros [[Hin Hflag] <-]. apply (findOne_selects _id); auto.
    + rewrite Hflag. unfold Mongoose.byId. now rewrite String.eqb_refl.
    + intros x Hx. apply andb_true_iff in Hx as [Hx _].
      now apply byId_true in Hx.
Qed.

Lemma getById_iff_listed_witness :
  getById "i2" stock
    = Some {| _id := "i2"; fields := [("name", "nut")];
              deleted := false |} <->
  In {| _id := "i2"; fields := [("name", "nut")]; deleted := false |}
     (getAll stock) /\
  "i2" = "i2".
Proof.
  apply (getById_iff_listed stock "i2"
           {| _id := "i2"; fields := [("name", "nut")];
              deleted := false |}).
  exact stock_unique.
Defined.

Lemma getById_absent c i :
  ~ In i (Mongoose.ids _id c) -> getById i c = None.
Proof.
  intros Hi. unfold getById. apply findOne_None. intros d Hd.
  destruct (Mongoose.byId _id i d) eqn:E; [|reflexivity].
  apply byId_true in E. exfalso. apply Hi. rewrite <- E.
  now apply in_map.
Qed.

(** X3: on an id that no document has, [getById] finds nothing and
    [deleteById], [restoreById], [forceDelete] and a valid [update]
    return [null] and leave the collection as it is. *)
Theorem absent_id_no_op c i :
  ~ In i (Mongoose.ids _id c) ->
  getById i c = None /\
  deleteById i c = (None, c) /\
  restoreById i c = (None, c) /\
  forceDelete i c = (None, c) /\
  (forall valid body,
     update valid i body c
     = (if valid body then Ok None else Throw ValidationError, c)).
Proof.
  intros Hi. repeat split.
  - now apply getById_absent.
  - now apply findByIdAndUpdate_absent.
  - now apply findByIdAndUpdate_absent.
  - now apply findByIdAndDelete_absent.
  - intros valid body. unfold update.
    rewrite (findByIdAndUpdate_absent _id true i _ c Hi).
    now destruct (valid body).
Qed.

Lemma absent_id_no_op_witness :
  getById "i9" stock = None /\
  deleteById "i9" stock = (None, stock) /\
  restoreById "i9" stock = (None, stock) /\
  forceDelete "i9" stock = (None, stock) /\
  (forall valid body,
     update valid "i9" body stock
     = (if valid body then Ok None else Throw ValidationError, stock)).
Proof.
  apply (absent_id_no_op stock "i9").
  simpl. intuition discriminate.
Defined.

Lemma apply_patch_id body d : _id (apply_patch body d) = _id d.
Proof. reflexivity. Qed.

Lemma update_store valid i body c :
  snd (update valid i body c)
  = if valid body
    then Mongoose.updateOne (Mongoose.byId _id i) (apply_patch body) c
    else c.
Proof.
  unfold update. destruct (valid body); simpl; [|reflexivity].
  apply findByIdAndUpdate_store.
Qed.

Lemma byId_other i j d :
  i <> j -> Mongoose.byId _id i d = true ->
  Mongoose.byId _id j d && negb (deleted d) = false.
Proof.
  intros Hij Hi. apply byId_true in Hi.
  assert (Mongoose.byId _id j d = false) as ->; [|reflexivity].
  apply byId_false. congruence.
Qed.

(** X4: a write addressed to id [i] does not change what [getById]
    returns for any other id. *)
Theorem writes_leave_other_lookups i j c :
  i <> j ->
  getById j (snd (deleteById i c)) = getById j c /\
  getById j (snd (restoreById i c)) = getById j c /\
  getById j (snd (forceDelete i c)) = getById j c /\
  (forall valid body,
     getById j (snd (update valid i body c)) = getById j c).
Proof.
  intros Hij. rewrite deleteById_store, restoreById_store.
  unfold getById. repeat split.
  - apply findOne_updateOne_frame. intros d Hd.
    split; now apply (byId_other i j).
  - apply findOne_updateOne_frame. intros d Hd.
    split; now apply (byId_other i j).
  - unfold forceDelete, Mongoose.findByIdAndDelete. simpl.
    apply findOne_deleteOne_frame. intros d Hd.
    now apply (byId_other i j).
  - intros valid body. rewrite update_store.
    destruct (valid body); [|reflexivity].
    apply findOne_updateOne_frame. intros d Hd.
    split; now apply (byId_other i j).
Qed.

Lemma writes_leave_other_lookups_witness :
  getById "i2" (snd (deleteById "i1" stock)) = getById "i2" stock /\
  getById "i2" (snd (restoreById "i1" stock)) = getById "i2" stock /\
  getById "i2" (snd (forceDelete "i1" stock)) = getById "i2" stock /\
  (forall valid body,
     getById "i2" (snd (update valid "i1" body stock))
     = getById "i2" stock).
Proof.
  apply (writes_leave_other_lookups "i1" "i2" stock). discriminate.
Defined.

(** X5: a document whose id is not the one addressed is stored after
    [deleteById], [restoreById], [forceDelete] and [update] exactly when
    it was stored before: these writes neither drop nor alter nor add
    any other document. *)
Theorem writes_leave_other_documents i c d :
  _id d <> i ->
  (In d (snd (deleteById i c)) <-> In d c) /\
  (In d (snd (restoreById i c)) <-> In d c) /\
  (In d (snd (forceDelete i c)) <-> In d c) /\
  (forall valid body, In d (snd (update valid i body c)) <-> In d c).
Proof.
  intros Hd. apply (byId_false _id) in Hd.
  rewrite deleteById_store, restoreById_store. repeat split.
  - now apply In_updateOne_frame.
  - now apply In_updateOne_frame.
  - now apply In_updateOne_frame.
  - now apply In_updateOne_frame.
  - unfold forceDelete, Mongoose.findByIdAndDelete. simpl.
    now apply In_deleteOne_frame.
  - unfold forceDelete, Mongoose.findByIdAndDelete. simpl.
    now apply In_deleteOne_frame.
  - rewrite update_store. destruct (valid body); [|auto].
    now apply In_updateOne_frame.
  - rewrite update_store. destruct (valid body); [|auto].
    now apply In_updateOne_frame.
Qed.

Lemma writes_leave_other_documents_witness :
  let d := {| _id := "i2"; fields := [("name", "nut")];
              deleted := false |} in
  (In d (snd (deleteById "i1" stock)) <-> In d stock) /\
  (In d (snd (restoreById "i1" stock)) <-> In d stock) /\
  (In d (snd (forceDelete "i1" stock)) <-> In d stock) /\
  (forall valid body,
     In d (snd (update valid "i1" body stock)) <-> In d stock).
Proof.
  intros d. apply (writes_leave_other_documents "i1" stock d).
  discriminate.
Defined.

(** X6: the primary-key index is kept: after [deleteById], [restoreById],
    [forceDelete] and [update] no two documents share an id, and neither
    after [add] of a document whose id is not yet stored. *)
Theorem unique_ids_kept c i :
  Mongoose.unique_ids _id c ->
  Mongoose.unique_ids _id (snd (deleteById i c)) /\
  Mongoose.unique_ids _id (snd (restoreById i c)) /\
  Mongoose.unique_ids _id (snd (forceDelete i c)) /\
  (forall valid body,
     Mongoose.unique_ids _id (snd (update valid i body c))) /\
  (forall d, ~ In (_id d) (Mongoose.ids _id c) ->
     Mongoose.unique_ids _id (snd (add d c))).
Proof.
  intros Hc. rewrite deleteById_store, restoreById_store. repeat split.
  - now apply unique_ids_updateOne.
  - now apply unique_ids_updateOne.
  - now apply unique_ids_deleteOne.
  - intros valid body. rewrite update_store.
    destruct (valid body); [|assumption].
    now apply unique_ids_updateOne.
  - intros d Hd. now apply unique_ids_append.
Qed.

Lemma unique_ids_kept_witness :
  Mongoose.unique_ids _id (snd (deleteById "i2" stock)) /\
  Mongoose.unique_ids _id (snd (restoreById "i2" stock)) /\
  Mongoose.unique_ids _id (snd (forceDelete "i2" stock)) /\
  (forall valid body,
     Mongoose.unique_ids _id (snd (update valid "i2" body stock))) /\
  (forall d, ~ In (_id d) (Mongoose.ids _id stock) ->
     Mongoose.unique_ids _id (snd (add d stock))).
Proof. apply (unique_ids_kept stock "i2"). exact stock_unique. Defined.

(** X7: [forceDelete] cannot be undone by the service: after it,
    [restoreById], [deleteById] and a second [forceDelete] on the same id
    return [null] and change nothing. *)
Theorem force_delete_irreversible c i :
  Mongoose.unique_ids _id c ->
  let c' := snd (forceDelete i c) in
  restoreById i c' = (None, c') /\
  deleteById i c' = (None, c') /\
  forceDelete i c' = (None, c').
Proof.
  intros Hc c'.
  assert (Hgone : ~ In i (Mongoose.ids _id c')).
  { now apply deleteOne_byId_gone. }
  repeat split.
  - now apply findByIdAndUpdate_absent.
  - now apply findByIdAndUpdate_absent.
  - now apply findByIdAndDelete_absent.
Qed.

Lemma force_delete_irreversible_witness :
  let c' := snd (forceDelete "i2" stock) in
  restoreById "i2" c' = (None, c') /\
  deleteById "i2" c' = (None, c') /\
  forceDelete "i2" c' = (None, c').
Proof. apply (force_delete_irreversible stock "i2"). exact stock_unique. Defined.

(** X8: [deleteById] and [restoreById] return the document as it was
    before the write, so the flag in the returned document is the old
    one, while the stored document carries the new flag. *)
Theorem flag_writes_return_previous_document c r :
  Mongoose.unique_ids _id c -> In r c ->
  fst (deleteById (_id r) c) = Some r /\
  Mongoose.findOne (Mongoose.byId _id (_id r)) (snd (deleteById (_id r) c))
    = Some (set_deleted true r) /\
  fst (restoreById (_id r) c) = Some r /\
  Mongoose.findOne (Mongoose.byId _id (_id r)) (snd (restoreById (_id r) c))
    = Some (set_deleted false r).
Proof.
  intros Hc Hr.
  pose proof (findOne_byId_unique _id c r Hc Hr) as Hfind.
  rewrite deleteById_store, restoreById_store.
  rewrite !(findOne_byId_updateOne _id) by reflexivity.
  rewrite Hfind. unfold deleteById, restoreById, Mongoose.findByIdAndUpdate.
  rewrite Hfind. repeat split.
Qed.

Lemma flag_writes_return_previous_document_witness :
  let r := {| _id := "i2"; fields := [("name", "nut")];
              deleted := false |} in
  fst (deleteById "i2" stock) = Some r /\
  Mongoose.findOne (Mongoose.byId _id "i2") (snd (deleteById "i2" stock))
    = Some (set_deleted true r) /\
  fst (restoreById "i2" stock) = Some r /\
  Mongoose.findOne (Mongoose.byId _id "i2") (snd (restoreById "i2" stock))
    = Some (set_deleted false r).
Proof.
  intros r. apply (flag_writes_return_previous_document stock r).
  - exact stock_unique.
  - simpl. auto.
Defined.

(** X9: [add] returns the created document in an array of one and stores
    it last; when its id is new, [getById] on it finds it if its flag is
    off and nothing if its flag is on, the listings grow by it on the
    side of its flag, and lookups of other ids are unchanged. *)
Theorem add_then_lookup c d :
  ~ In (_id d) (Mongoose.ids _id c) ->
  fst (add d c) = [d] /\
  getById (_id d) (snd (add d c)) = (if deleted d then None else Some d) /\
  getAll (snd (add d c)) = getAll c ++ (if deleted d then [] else [d]) /\
  getAllDeleted (snd (add d c))
    = getAllDeleted c ++ (if deleted d then [d] else []) /\
  (forall j, j <> _id d -> getById j (snd (add d c)) = getById j c).
Proof.
  intros Hd. unfold add, getAll, getAllDeleted, getById, Mongoose.find.
  simpl. rewrite !List.filter_app. simpl. repeat split.
  - rewrite findOne_append.
    fold (getById (_id d) c). rewrite (getById_absent c _ Hd).
    unfold Mongoose.byId. rewrite String.eqb_refl. simpl.
    now destruct (deleted d).
  - now destruct (deleted d).
  - intros j Hj. rewrite findOne_append.
    destruct (Mongoose.findOne _ c); [reflexivity|].
    assert (Mongoose.byId _id j d = false) as ->; [|reflexivity].
    apply byId_false. congruence.
Qed.

Lemma add_then_lookup_witness :
  let d := {| _id := "i3"; fields := [("name", "washer")];
              deleted := false |} in
  fst (add d stock) = [d] /\
  getById "i3" (snd (add d stock)) = Some d /\
  getAll (snd (add d stock)) = getAll stock ++ [d] /\
  getAllDeleted (snd (add d stock)) = getAllDeleted stock ++ [] /\
  (forall j, j <> "i3" -> getById j (snd (add d stock)) = getById j stock).
Proof.
  intros d. apply (add_then_lookup stock d).
  simpl. intuition discriminate.
Defined.

Lemma ids_listing_patched (q : doc -> bool) (f : doc -> doc) c :
  (forall x, _id (f x) = _id x) -> (forall x, deleted (f x) = deleted x) ->
  Mongoose.ids _id (getAll (Mongoose.updateOne q f c))
    = Mongoose.ids _id (getAll c) /\
  Mongoose.ids _id (getAllDeleted (Mongoose.updateOne q f c))
    = Mongoose.ids _id (getAllDeleted c).
Proof.
  intros Hid Hflag. unfold getAll, getAllDeleted, Mongoose.find, Mongoose.ids.
  induction c as [|x c [IH1 IH2]]; simpl; [auto|].
  destruct (q x); simpl.
  - rewrite Hflag. destruct (deleted x); simpl; now rewrite ?Hid.
  - destruct (deleted x); simpl; now rewrite ?IH1, ?IH2.
Qed.

(** X10: a valid [update] on a stored id returns the patched document,
    which is the one then stored under that id; it reaches soft-deleted
    documents too, changes no id, and when the body carries no flag both
    listings show the same ids as before.  A body the validators reject
    raises and writes nothing. *)
Theorem update_returns_stored_document valid i body c d :
  Mongoose.findOne (Mongoose.byId _id i) c = Some d ->
  (valid body = true ->
     fst (update valid i body c) = Ok (Some (apply_patch body d)) /\
     Mongoose.findOne (Mongoose.byId _id i) (snd (update valid i body c))
       = Some (apply_patch body d) /\
     Mongoose.ids _id (snd (update valid i body c)) = Mongoose.ids _id c /\
     (p_deleted body = None ->
        Mongoose.ids _id (getAll (snd (update valid i body c)))
          = Mongoose.ids _id (getAll c) /\
        Mongoose.ids _id (getAllDeleted (snd (update valid i body c)))
          = Mongoose.ids _id (getAllDeleted c))) /\
  (valid body = false ->
     update valid i body c = (Throw ValidationError, c)).
Proof.
  intros Hd. split; intros Hv.
  - rewrite update_store, Hv. repeat split.
    + unfold update, Mongoose.findByIdAndUpdate. now rewrite Hv, Hd.
    + rewrite (findOne_byId_updateOne _id) by reflexivity. now rewrite Hd.
    + now apply ids_updateOne.
    + apply ids_listing_patched; [reflexivity|].
      intros x. simpl. now rewrite H.
    + apply ids_listing_patched; [reflexivity|].
      intros x. simpl. now rewrite H.
  - unfold update. now rewrite Hv.
Qed.

Lemma update_returns_stored_document_witness :
  let body := {| p_fields := [("name", "bolt M8"); ("bin", "A4")];
                 p_deleted := None |} in
  let d' := {| _id := "i1";
               fields := [("name", "bolt M8"); ("bin", "A4")];
               deleted := true |} in
  fst (update (fun _ => true) "i1" body stock) = Ok (Some d') /\
  Mongoose.findOne (Mongoose.byId _id "i1")
    (snd (update (fun _ => true) "i1" body stock)) = Some d' /\
  Mongoose.ids _id (snd (update (fun _ => true) "i1" body stock))
    = Mongoose.ids _id stock /\
  (p_deleted body = None ->
     Mongoose.ids _id (getAll (snd (update (fun _ => true) "i1" body stock)))
       = Mongoose.ids _id (getAll stock) /\
     Mongoose.ids _id
       (getAllDeleted (snd (update (fun _ => true) "i1" body stock)))
       = Mongoose.ids _id (getAllDeleted stock)).
Proof.
  intros body d'.
  exact (proj1 (update_returns_stored_document (fun _ => true) "i1" body
                  stock
                  {| _id := "i1"; fields := [("name", "bolt")];
                     deleted := true |} eq_refl) eq_refl).
Defined.

Lemma flag_already_set c r :
  Mongoose.unique_ids _id c -> In r c ->
  Mongoose.updateOne (Mongoose.byId _id (_id r))
    (set_deleted (deleted r)) c = c.
Proof.
  intros Hc Hr.
  rewrite (updateOne_ext _ _ (fun d => d)); [apply updateOne_id|].
  intros d Hd Hq. apply byId_true in Hq.
  rewrite (same_id_same_doc _id c d r Hc Hd Hr Hq).
  apply set_deleted_same.
Qed.

Lemma listing_lengths_after_flag b c r :
  Mongoose.unique_ids _id c -> In r c -> deleted r = negb b ->
  let c' := Mongoose.updateOne (Mongoose.byId _id (_id r))
              (set_deleted b) c in
  length (getAll c') + (if b then 1 else 0)
    = length (getAll c) + (if b then 0 else 1) /\
  length (getAllDeleted c') + (if b then 0 else 1)
    = length (getAllDeleted c) + (if b then 1 else 0).
Proof.
  unfold Mongoose.unique_ids, getAll, getAllDeleted, Mongoose.find.
  induction c as [|y c IH]; simpl; [intros _ []|].
  intros Hnd Hr Hflag. apply List.NoDup_cons_iff in Hnd as [Hy Hnd].
  destruct (Mongoose.byId _id (_id r) y) eqn:Hq.
  - apply byId_true in Hq.
    assert (y = r) as ->.
    { destruct Hr as [|Hr]; [assumption|]. exfalso. apply Hy.
      rewrite Hq. now apply in_map. }
    simpl. rewrite Hflag. destruct b; simpl; lia.
  - apply byId_false in Hq.
    destruct Hr as [->|Hr]; [congruence|].
    destruct (IH Hnd Hr Hflag) as [IH1 IH2]. simpl in IH1, IH2.
    simpl. destruct (deleted y); simpl; lia.
Qed.

(** X11: a soft delete of an active record moves exactly one record from
    the active listing to the deleted listing, and a restore of a
    soft-deleted record moves exactly one back; [deleteById] on a record
    already soft-deleted and [restoreById] on an active one leave the
    collection as it is. *)
Theorem flag_writes_move_one_record c r :
  Mongoose.unique_ids _id c -> In r c ->
  (deleted r = false ->
     length (getAll (snd (deleteById (_id r) c))) + 1 = length (getAll c) /\
     length (getAllDeleted (snd (deleteById (_id r) c)))
       = length (getAllDeleted c) + 1 /\
     snd (restoreById (_id r) c) = c) /\
  (deleted r = true ->
     length (getAll (snd (restoreById (_id r) c))) = length (getAll c) + 1 /\
     length (getAllDeleted (snd (restoreById (_id r) c))) + 1
       = length (getAllDeleted c) /\
     snd (deleteById (_id r) c) = c).
Proof.
  intros Hc Hr. rewrite deleteById_store, restoreById_store.
  split; intros Hflag.
  - destruct (listing_lengths_after_flag true c r Hc Hr Hflag) as [H1 H2].
    cbv zeta in H1, H2. repeat split; [lia|lia|].
    rewrite <- Hflag. now apply flag_already_set.
  - destruct (listing_lengths_after_flag false c r Hc Hr Hflag) as [H1 H2].
    cbv zeta in H1, H2. repeat split; [lia|lia|].
    rewrite <- Hflag. now apply flag_already_set.
Qed.

Lemma flag_writes_move_one_record_witness :
  length (getAll (snd (deleteById "i2" stock))) + 1 = length (getAll stock) /\
  length (getAllDeleted (snd (deleteById "i2" stock)))
    = length (getAllDeleted stock) + 1 /\
  snd (restoreById "i2" stock) = stock.
Proof.
  refine (proj1 (flag_writes_move_one_record stock
                   {| _id := "i2"; fields := [("name", "nut")];
                      deleted := false |} stock_unique _) eq_refl).
  simpl. auto.
Defined.
End InventoryMore.

(** ** Users controller: reading, soft delete and restore *)

Section ControllerMore.
Context `{Collaborators}.
Import User.
Implicit Types (w : World) (u : doc) (i : string).

Lemma world0_unique : Mongoose.unique_ids _id (users world0).
Proof.
  unfold Mongoose.unique_ids. simpl.
  repeat constructor; simpl; intuition discriminate.
Qed.

Lemma set_users_same w : set_users (users w) w = w.
Proof. now destruct w. Qed.

Lemma set_imageStore_same w : set_imageStore (imageStore w ++ []) w = w.
Proof. destruct w. unfold set_imageStore. simpl. now rewrite app_nil_r. Qed.

Lemma user_getById_absent (c : list doc) i :
  ~ In i (Mongoose.ids _id c) -> UserService.getById i c = None.
Proof.
  intros Hi. unfold UserService.getById. apply findOne_None. intros d Hd.
  destruct (Mongoose.byId _id i d) eqn:E; [|reflexivity].
  apply byId_true in E. exfalso. apply Hi. rewrite <- E.
  now apply in_map.
Qed.

Lemma user_set_deleted_same u : UserService.set_deleted (deleted u) u = u.
Proof. now destruct u. Qed.

Lemma user_flag_already_set (c : list doc) u :
  Mongoose.unique_ids _id c -> In u c ->
  Mongoose.updateOne (Mongoose.byId _id (_id u))
    (UserService.set_deleted (deleted u)) c = c.
Proof.
  intros Hc Hu.
  rewrite (updateOne_ext _ _ (fun d => d)); [apply updateOne_id|].
  intros d Hd Hq. apply byId_true in Hq.
  rewrite (same_id_same_doc _id c d u Hc Hd Hu Hq).
  apply user_set_deleted_same.
Qed.

(** X12: [getSingleUser] never fails and never writes: for the id of an
    active user it answers with that user, and for an id that is unknown
    or belongs to a soft-deleted user it answers with [null] data and
    "No User found" in an ordinary response, not with an error. *)
Theorem getSingleUser_outcomes i w :
  Mongoose.unique_ids _id (users w) ->
  (forall u, In u (users w) -> _id u = i -> deleted u = false ->
     getSingleUser i w
     = (w, Ok (responseHandler (Single (Some u))
                 "User retrieved successfully" None))) /\
  ((forall u, In u (users w) -> _id u = i -> deleted u = true) ->
     getSingleUser i w
     = (w, Ok (responseHandler (Single None) "No User found" None))).
Proof.
  intros Hc. unfold getSingleUser. run. split.
  - intros u Hu <- Hflag.
    now rewrite (getById_stored _ u Hc Hu), Hflag.
  - intros Hall.
    assert (UserService.getById i (users w) = None) as ->; [|reflexivity].
    apply findOne_None. intros d Hd.
    destruct (Mongoose.byId _id i d) eqn:E; [|reflexivity].
    apply byId_true in E. now rewrite (Hall d Hd E).
Qed.

(** X13: the two listing handlers never fail and never write; together
    their data hold every stored user exactly once, and [getAllUsers]
    says "No Users found" exactly when every stored user is
    soft-deleted. *)
Theorem listing_handlers_outcomes w :
  (exists active removed m1 m2,
     getAllUsers w = (w, Ok (responseHandler (Array (map Some active))
                               m1 None)) /\
     getAllUsersDeleted w
       = (w, Ok (responseHandler (Array (map Some removed)) m2 None)) /\
     Permutation (active ++ removed) (users w) /\
     (m1 = "No Users found" <->
        Forall (fun u => deleted u = true) (users w)) /\
     (m2 = "No Deleted Users found" <->
        Forall (fun u => deleted u = false) (users w))).
Proof.
  exists (UserService.getAll (users w)),
         (UserService.getAllDeleted (users w)).
  do 2 eexists. split; [reflexivity|]. split; [reflexivity|].
  unfold UserService.getAll, UserService.getAllDeleted, Mongoose.find.
  generalize (users w) as c. intros c. repeat split.
  - induction c as [|x c IH]; simpl; [constructor|].
    destruct (deleted x); simpl.
    + apply Permutation_sym, Permutation_cons_app, Permutation_sym, IH.
    + now constructor.
  - intros Hm. induction c as [|x c IH]; simpl in *; [constructor|].
    destruct (deleted x) eqn:Hx; simpl in Hm; [|discriminate Hm].
    constructor; auto.
  - intros Hall. induction Hall as [|x c Hx _ IH]; simpl; [reflexivity|].
    now rewrite Hx.
  - intros Hm. induction c as [|x c IH]; simpl in *; [constructor|].
    destruct (deleted x) eqn:Hx; simpl in Hm; [discriminate Hm|].
    constructor; auto.
  - intros Hall. induction Hall as [|x c Hx _ IH]; simpl; [reflexivity|].
    now rewrite Hx.
Qed.

(** X14: [deleteUser] answers from the document as it was before the
    write.  An active user is flagged and returned with the old flag
    under "User deleted successfully", and is then no longer found by
    [getSingleUser]; a user already soft-deleted gives empty data and
    "User is already deleted" with nothing changed; an id that no user
    has gives data [[null]] under "User deleted successfully" with
    nothing changed. *)
Theorem deleteUser_outcomes i w :
  Mongoose.unique_ids _id (users w) ->
  (forall u, In u (users w) -> _id u = i -> deleted u = false ->
     deleteUser i w
     = (set_users
          (Mongoose.updateOne (Mongoose.byId _id i)
             (UserService.set_deleted true) (users w)) w,
        Ok (responseHandler (Array [Some u])
              "User deleted successfully" None)) /\
     getSingleUser i (fst (deleteUser i w))
     = (fst (deleteUser i w),
        Ok (responseHandler (Single None) "No User found" None))) /\
  (forall u, In u (users w) -> _id u = i -> deleted u = true ->
     deleteUser i w
     = (w, Ok (responseHandler (Array []) "User is already deleted" None))) /\
  (~ In i (Mongoose.ids _id (users w)) ->
     deleteUser i w
     = (w, Ok (responseHandler (Array [None])
                 "User deleted successfully" None))).
Proof.
  intros Hc.
  assert (Hrun : forall u, In u (users w) -> _id u = i ->
    deleteUser i w
    = (set_users
         (Mongoose.updateOne (Mongoose.byId _id i)
            (UserService.set_deleted true) (users w)) w,
       Ok (responseHandler
             (if deleted u then Array [] else Array [Some u])
             (if deleted u then "User is already deleted"
              else "User deleted successfully") None))).
  { intros u Hu <-. unfold deleteUser. run.
    unfold UserService.deleteById, Mongoose.findByIdAndUpdate.
    now rewrite (findOne_byId_unique _id _ u Hc Hu). }
  split; [|split].
  - intros u Hu Hi Hflag. rewrite (Hrun u) by assumption.
    rewrite Hflag. simpl. split; [reflexivity|].
    unfold getSingleUser. run. subst i.
    pose proof (getById_stored
      (Mongoose.updateOne (Mongoose.byId _id (_id u))
         (UserService.set_deleted true) (users w))
      (UserService.set_deleted true u)) as Hget.
    simpl in Hget. rewrite Hget; [reflexivity| |].
    + now apply unique_ids_updateOne.
    + apply (In_updateOne_byId _id); auto.
  - intros u Hu Hi Hflag. rewrite (Hrun u) by assumption.
    rewrite Hflag. subst i.
    pose proof (user_flag_already_set _ u Hc Hu) as Hsame.
    rewrite Hflag in Hsame. rewrite Hsame. now rewrite set_users_same.
  - intros Hi. unfold deleteUser. run.
    unfold UserService.deleteById.
    rewrite (findByIdAndUpdate_absent _id false i _ _ Hi). simpl.
    now rewrite set_users_same.
Qed.

(** X15: [restoreUser] likewise answers from the document before the
    write.  A soft-deleted user is made active and returned, still with
    the flag set, under "User restored successfully"; an active user and
    an id that no user has both give empty data and "User is not
    deleted" with nothing changed. *)
Theorem restoreUser_outcomes i w :
  Mongoose.unique_ids _id (users w) ->
  (forall u, In u (users w) -> _id u = i -> deleted u = true ->
     restoreUser i w
     = (set_users
          (Mongoose.updateOne (Mongoose.byId _id i)
             (UserService.set_deleted false) (users w)) w,
        Ok (responseHandler (Array [Some u])
              "User restored successfully" None)) /\
     getSingleUser i (fst (restoreUser i w))
     = (fst (restoreUser i w),
        Ok (responseHandler (Single (Some (UserService.set_deleted false u)))
              "User retrieved successfully" None))) /\
  (forall u, In u (users w) -> _id u = i -> deleted u = false ->
     restoreUser i w
     = (w, Ok (responseHandler (Array []) "User is not deleted" None))) /\
  (~ In i (Mongoose.ids _id (users w)) ->
     restoreUser i w
     = (w, Ok (responseHandler (Array []) "User is not deleted" None))).
Proof.
  intros Hc.
  assert (Hrun : forall u, In u (users w) -> _id u = i ->
    restoreUser i w
    = (set_users
         (Mongoose.updateOne (Mongoose.byId _id i)
            (UserService.set_deleted false) (users w)) w,
       Ok (responseHandler
             (if negb (deleted u) then Array [] else Array [Some u])
             (if negb (deleted u) then "User is not deleted"
              else "User restored successfully") None))).
  { intros u Hu <-. unfold restoreUser. run.
    unfold UserService.restoreById, Mongoose.findByIdAndUpdate.
    now rewrite (findOne_byId_unique _id _ u Hc Hu). }
  split; [|split].
  - intros u Hu Hi Hflag. rewrite (Hrun u) by assumption.
    rewrite Hflag. simpl. split; [reflexivity|].
    unfold getSingleUser. run. subst i.
    pose proof (getById_stored
      (Mongoose.updateOne (Mongoose.byId _id (_id u))
         (UserService.set_deleted false) (users w))
      (UserService.set_deleted false u)) as Hget.
    simpl in Hget. rewrite Hget; [reflexivity| |].
    + now apply unique_ids_updateOne.
    + apply (In_updateOne_byId _id); auto.
  - intros u Hu Hi Hflag. rewrite (Hrun u) by assumption.
    rewrite Hflag. subst i.
    pose proof (user_flag_already_set _ u Hc Hu) as Hsame.
    rewrite Hflag in Hsame. rewrite Hsame. now rewrite set_users_same.
  - intros Hi. unfold restoreUser. run.
    unfold UserService.restoreById.
    rewrite (findByIdAndUpdate_absent _id false i _ _ Hi). simpl.
    now rewrite set_users_same.
Qed.

(** *** Documents found after a write *)

(** When [u] is the first document that satisfies [q] or has the id of
    [u], patching by that id into a document that satisfies [q] makes the
    patched document the first one that satisfies [q]. *)
Lemma findOne_first_patched (q : doc -> bool) (f : doc -> doc)
    (c : list doc) u :
  Mongoose.findOne (fun x => q x || Mongoose.byId _id (_id u) x) c
    = Some u ->
  q (f u) = true ->
  Mongoose.findOne q (Mongoose.updateOne (Mongoose.byId _id (_id u)) f c)
    = Some (f u).
Proof.
  intros Hfirst Hq. induction c as [|y c IH]; simpl in *; [discriminate|].
  destruct (Mongoose.byId _id (_id u) y) eqn:Hy; simpl.
  - rewrite orb_true_r in Hfirst. injection Hfirst as ->. now rewrite Hq.
  - rewrite orb_false_r in Hfirst. destruct (q y) eqn:Hqy; [|auto].
    injection Hfirst as ->. unfold Mongoose.byId in Hy.
    now rewrite String.eqb_refl in Hy.
Qed.

Lemma found_is_first (q : doc -> bool) (c : list doc) u :
  Mongoose.unique_ids _id c -> Mongoose.findOne q c = Some u ->
  Mongoose.findOne (fun x => q x || Mongoose.byId _id (_id u) x) c
    = Some u.
Proof.
  unfold Mongoose.unique_ids.
  induction c as [|y c IH]; simpl; [discriminate|].
  intros Hnd Hu. apply List.NoDup_cons_iff in Hnd as [Hy Hnd].
  destruct (q y) eqn:Hqy; simpl; [assumption|].
  destruct (Mongoose.byId _id (_id u) y) eqn:Hid; [|auto].
  exfalso. apply byId_true in Hid. apply Hy. rewrite Hid.
  apply findOne_Some in Hu as [Hu _]. now apply in_map.
Qed.

Lemma only_holder_is_first (q : doc -> bool) (c : list doc) u :
  Mongoose.unique_ids _id c -> In u c ->
  (forall x, In x c -> q x = true -> x = u) ->
  Mongoose.findOne (fun x => q x || Mongoose.byId _id (_id u) x) c
    = Some u.
Proof.
  unfold Mongoose.unique_ids.
  induction c as [|y c IH]; simpl; [intros _ []|].
  intros Hnd Hu Honly. apply List.NoDup_cons_iff in Hnd as [Hy Hnd].
  destruct Hu as [->|Hu].
  - unfold Mongoose.byId at 1. now rewrite String.eqb_refl, orb_true_r.
  - assert (Hne : _id y <> _id u).
    { intros E. apply Hy. rewrite E. now apply in_map. }
    destruct (q y) eqn:Hqy.
    + exfalso. apply Hne. now rewrite (Honly y (or_introl eq_refl) Hqy).
    + apply (byId_false _id) in Hne. rewrite Hne. simpl.
      apply IH; auto.
Qed.

(** *** Password change *)

(** X16: [changeUserPassword] answers "Both passwords are required" when
    either password is missing or empty, even if they also differ, and
    "Passwords do not match" when both are given and differ; in both
    cases nothing is written.  With two equal passwords the stored hash
    of the user with that id becomes the hash of the new password and
    nothing else of the user changes. *)
Theorem changeUserPassword_outcomes i (p q : option string) w :
  (truthy p = false \/ truthy q = false ->
     changeUserPassword i p q w
     = (w, Throw (createError STATUSCODE.BAD_REQUEST
                    "Both passwords are required"))) /\
  (truthy p = true -> truthy q = true -> p <> q ->
     changeUserPassword i p q w
     = (w, Throw (createError STATUSCODE.BAD_REQUEST
                    "Passwords do not match"))) /\
  (forall x u,
     p = Some x -> q = Some x -> x <> "" ->
     Mongoose.unique_ids _id (users w) -> In u (users w) -> _id u = i ->
     changeUserPassword i p q w
     = (set_users
          (Mongoose.updateOne (Mongoose.byId _id i)
             (UserService.set_password (bcrypt_hash x)) (users w)) w,
        Ok (responseHandler
              (Array [Some (UserService.set_password (bcrypt_hash x) u)])
              "Password changed successfully" None))).
Proof.
  unfold changeUserPassword. split; [|split].
  - intros [->| ->]; simpl; now rewrite ?orb_true_r.
  - intros -> -> Hne. simpl.
    assert (str_eqb_opt p q = false) as ->; [|reflexivity].
    destruct p as [x|], q as [y|]; simpl; try congruence.
    apply String.eqb_neq. congruence.
  - intros x u -> -> Hx Hc Hu <-. simpl.
    apply String.eqb_neq in Hx. rewrite Hx, String.eqb_refl. simpl. run.
    unfold UserService.changePassword, Mongoose.findByIdAndUpdate.
    now rewrite (findOne_byId_unique _id _ u Hc Hu).
Qed.

(** X17: after a password change, logging in with the email of that user
    and the new password succeeds, provided bcrypt accepts a password
    against its own hash; a password that bcrypt rejects against the new
    hash is refused with Unauthorized. *)
Theorem password_change_then_login x u w :
  Mongoose.unique_ids _id (users w) ->
  UserService.getEmail (email u) (users w) = Some u ->
  x <> "" ->
  bcrypt_compare x (bcrypt_hash x) = true ->
  let w' := fst (changeUserPassword (_id u) (Some x) (Some x) w) in
  let t := generateAccess {| tp_id := _id u; tp_role := role u |} in
  loginUser (email u) x w'
  = (set_savedToken (Some (access t)) w',
     Ok (responseHandler
           (Single (Some (UserService.set_password (bcrypt_hash x) u)))
           "User Login successfully" (Some t))) /\
  (forall old, bcrypt_compare old (bcrypt_hash x) = false ->
     loginUser (email u) old w' = (w', Throw Unauthorized_password)).
Proof.
  intros Hc Hu Hx Hok w' t.
  assert (Hfound : UserService.getEmail (email u) (users w')
                   = Some (UserService.set_password (bcrypt_hash x) u)).
  { unfold w', changeUserPassword. simpl.
    apply String.eqb_neq in Hx. rewrite Hx, String.eqb_refl. simpl. run.
    unfold UserService.changePassword.
    rewrite (findByIdAndUpdate_store _id).
    unfold UserService.getEmail. apply findOne_first_patched.
    - now apply found_is_first.
    - simpl. apply String.eqb_refl. }
  split.
  - unfold loginUser. run. rewrite Hfound. simpl. now rewrite Hok.
  - intros old Hold. unfold loginUser. run. rewrite Hfound. simpl.
    now rewrite Hold.
Qed.

(** *** Registration *)

(** The document [createNewUser] hands to the service. *)
Lemma createNewUser_run body (files : list File) w :
  files <> [] ->
  createNewUser body files w
  = (set_users
       (users w ++
        [ {| _id := _id body; email := email body;
             password := bcrypt_hash (password body); role := role body;
             image := map uploaded files; deleted := deleted body;
             verificationCode := verificationCode body |} ])
       (set_imageStore (imageStore w ++ map Upload files) w),
     Ok {| created_data :=
             [[ {| _id := _id body; email := email body;
                   password := bcrypt_hash (password body);
                   role := role body;
                   image := map uploaded files; deleted := deleted body;
                   verificationCode := verificationCode body |} ]];
           created_message := "User created successfully" |}).
Proof.
  intros Hfiles. unfold createNewUser, multipleImages. run.
  destruct files as [|f files]; [congruence|]. reflexivity.
Qed.


(** X19: a user registered with at least one file and an email that no
    stored user has can log in with the registered password, provided
    bcrypt accepts a password against its own hash: the token is issued
    for the id and role of the new user. *)
Theorem register_then_login body (files : list File) w :
  files <> [] ->
  (forall u, In u (users w) -> email u <> email body) ->
  bcrypt_compare (password body) (bcrypt_hash (password body)) = true ->
  let w' := fst (createNewUser body files w) in
  let t := generateAccess {| tp_id := _id body; tp_role := role body |} in
  exists stored,
    UserService.getEmail (email body) (users w') = Some stored /\
    password stored = bcrypt_hash (password body) /\
    image stored = map uploaded files /\
    loginUser (email body) (password body) w'
    = (set_savedToken (Some (access t)) w',
       Ok (responseHandler (Single (Some stored))
             "User Login successfully" (Some t))).
Proof.
  intros Hfiles Hfresh Hok w' t.
  pose proof (createNewUser_run body files w Hfiles) as Hrun.
  eexists. split; [|split; [|split]].
  - unfold w'. rewrite Hrun. simpl. unfold UserService.getEmail.
    rewrite findOne_append.
    apply getEmail_None in Hfresh. unfold UserService.getEmail in Hfresh.
    rewrite Hfresh. simpl. now rewrite String.eqb_refl.
  - reflexivity.
  - reflexivity.
  - unfold loginUser. run. unfold w' at 1. rewrite Hrun. simpl.
    unfold UserService.getEmail. rewrite findOne_append.
    apply getEmail_None in Hfresh. unfold UserService.getEmail in Hfresh.
    rewrite Hfresh. simpl. rewrite String.eqb_refl. simpl.
    now rewrite Hok.
Qed.

(** *** Sessions *)

(** X20: of two consecutive logouts the second always fails with
    Unauthorized: either the first one was refused and nothing changed,
    or it put the stored token in the blacklist. *)
Theorem second_logout_refused w :
  snd (logoutUser (fst (logoutUser w))) = Throw Unauthorized_session.
Proof.
  destruct (logoutUser_run w) as [[Hr E]|(t & Ht & Hn & E)];
    rewrite E; simpl.
  - now rewrite E.
  - match goal with |- snd (logoutUser ?w1) = _ =>
      destruct (logoutUser_run w1) as [[_ E']|(t' & _ & Hn' & _)]
    end.
    + now rewrite E'.
    + exfalso. apply Hn'. right. exists t. simpl. split; [assumption|].
      set_solver.
Qed.

Lemma loginUser_run address pass w u :
  UserService.getEmail address (users w) = Some u ->
  bcrypt_compare pass (password u) = true ->
  loginUser address pass w
  = (set_savedToken
       (Some (access (generateAccess
                        {| tp_id := _id u; tp_role := role u |}))) w,
     Ok (responseHandler (Single (Some u)) "User Login successfully"
           (Some (generateAccess
                    {| tp_id := _id u; tp_role := role u |})))).
Proof.
  intros Hu Hpw. unfold loginUser. run. now rewrite Hu, Hpw.
Qed.

(** X21: after a successful login whose token is not empty, a logout
    succeeds and adds exactly that token to the blacklist when the token
    was not blacklisted before, and fails with Unauthorized when the
    same token had already been blacklisted. *)
Theorem login_then_logout address pass w u :
  UserService.getEmail address (users w) = Some u ->
  bcrypt_compare pass (password u) = true ->
  let t := access (generateAccess
                     {| tp_id := _id u; tp_role := role u |}) in
  t <> "" ->
  (t ∉ blacklist w ->
     logoutUser (fst (loginUser address pass w))
     = (set_blacklist ({[ t ]} ∪ blacklist w) (set_savedToken (Some t) w),
        Ok (responseHandler (Array []) "User Logout successfully" None))) /\
  (t ∈ blacklist w ->
     logoutUser (fst (loginUser address pass w))
     = (set_savedToken (Some t) w, Throw Unauthorized_session)).
Proof.
  intros Hu Hpw t Ht. rewrite (loginUser_run address pass w u Hu Hpw).
  simpl. fold t.
  destruct (logoutUser_run (set_savedToken (Some t) w))
    as [[Hr E]|(t' & Ht' & Hn & E)]; rewrite E; clear E.
  - split; [|reflexivity]. intros Hnot. exfalso.
    destruct Hr as [Hr|(t' & Ht' & Hin)]; simpl in *.
    + apply String.eqb_neq in Ht. rewrite Ht in Hr. discriminate.
    + injection Ht' as <-. contradiction.
  - simpl in Ht'. injection Ht' as <-. split; [reflexivity|].
    intros Hin. exfalso. apply Hn. right. exists t. auto.
Qed.

(** *** Images *)

(** X22: [updateUser] without a file on an id that no active user has
    (unknown, or soft-deleted) stops on the read of [oldData.image] with
    a TypeError and changes nothing. *)
Theorem update_without_files_needs_active_user i body w :
  (forall u, In u (users w) -> _id u = i -> deleted u = true) ->
  updateUser i body [] w = (w, Throw (TypeError "image")).
Proof.
  intros Hall. unfold updateUser. run.
  assert (UserService.getById i (users w) = None) as ->; [|reflexivity].
  apply findOne_None. intros d Hd.
  destruct (Mongoose.byId _id i d) eqn:E; [|reflexivity].
  apply byId_true in E. now rewrite (Hall d Hd E).
Qed.

(** X23: [updateUser] with files first asks the image store to destroy
    the public ids of the active user's images and to upload the files,
    then writes the uploaded references on the user.  For a soft-deleted
    user it destroys nothing and still replaces the references.  When
    the validators reject the body the image store has already been
    changed and the user keeps the old references. *)
Theorem update_with_files i body (files : list File) w u :
  Mongoose.unique_ids _id (users w) -> In u (users w) -> _id u = i ->
  files <> [] ->
  let images := map uploaded files in
  let store :=
    set_imageStore
      (imageStore w
       ++ map Destroy (if deleted u then [] else public_ids u)
       ++ map Upload files) w in
  (runValidators (with_image images body) = true ->
     updateUser i body files w
     = (set_users
          (Mongoose.updateOne (Mongoose.byId _id i)
             (apply_patch (with_image images body)) (users w)) store,
        Ok (responseHandler
              (Array [Some (apply_patch (with_image images body) u)])
              "User updated successfully" None)) /\
     image (apply_patch (with_image images body) u) = images) /\
  (runValidators (with_image images body) = false ->
     updateUser i body files w = (store, Throw ValidationError)).
Proof.
  intros Hc Hu <- Hfiles images store.
  pose proof (findOne_byId_unique _id _ u Hc Hu) as Hfind.
  assert (Hlen : (0 <? length files)%nat = true).
  { destruct files; [congruence|reflexivity]. }
  unfold updateUser, multipleImages. rewrite Hlen. run.
  rewrite (getById_stored _ u Hc Hu).
  assert (Hold :
    match (if deleted u then None else Some u) with
    | Some o => map public_id (image o)
    | None => []
    end = (if deleted u then [] else public_ids u)).
  { now destruct (deleted u). }
  rewrite Hold. fold images. fold store.
  unfold UserService.update. split; intros Hv; rewrite Hv; simpl.
  - split; [|reflexivity].
    unfold Mongoose.findByIdAndUpdate. now rewrite Hfind.
  - reflexivity.
Qed.

(** X24: [forceDeleteUser] on an id that no user has does not fail: it
    answers with data [[null]] and "No User found", asks the image store
    for nothing and changes nothing. *)
Theorem forceDeleteUser_unknown_id i w :
  ~ In i (Mongoose.ids _id (users w)) ->
  forceDeleteUser i w
  = (w, Ok (responseHandler (Array [None]) "No User found" None)).
Proof.
  intros Hi. pose proof (findOne_byId_absent _id _ i Hi) as E.
  unfold forceDeleteUser, multipleImages. run.
  rewrite (deleteOne_no_match _ _ E), E. simpl.
  now rewrite set_users_same, set_imageStore_same.
Qed.

(** *** One-time codes: issue, use, reuse *)

(** The state after a code has been issued to [u]. *)
Lemma otp_issued_state address now otp w u vc :
  Mongoose.unique_ids _id (users w) ->
  UserService.getEmail address (users w) = Some u ->
  verificationCode u = Some vc ->
  (5 * 60 * 1000 <= now - createdAt vc)%Z ->
  let issued := {| code := otp; createdAt := now |} in
  let w1 := fst (sendUserEmailOTP address now otp w) in
  w1 = set_users
         (Mongoose.updateOne (Mongoose.byId _id (_id u))
            (UserService.set_verificationCode (Some issued)) (users w))
         (set_outbox (outbox w ++ [(address, otp)]) w) /\
  Mongoose.unique_ids _id (users w1) /\
  UserService.getEmail address (users w1)
    = Some (UserService.set_verificationCode (Some issued) u).
Proof.
  intros Hc Hu Hv Hold issued w1.
  assert (E : w1 = set_users
         (Mongoose.updateOne (Mongoose.byId _id (_id u))
            (UserService.set_verificationCode (Some issued)) (users w))
         (set_outbox (outbox w ++ [(address, otp)]) w)).
  { unfold w1.
    rewrite (sendUserEmailOTP_issues address now otp w u vc Hu Hv Hold).
    simpl. unfold UserService.sendEmailOTP. rewrite Hu.
    now rewrite (findByIdAndUpdate_store _id). }
  split; [exact E|]. rewrite E. simpl. split.
  - now apply unique_ids_updateOne.
  - unfold UserService.getEmail. apply findOne_first_patched.
    + now apply found_is_first.
    + simpl. now apply getEmail_Some in Hu as [_ ->%String.eqb_eq].
Qed.


(** X26: a code issued by [sendUserEmailOTP] and presented to
    [resetUserEmailPassword] within five minutes, with two equal
    non-empty passwords, resets the password of the user it was issued
    to, when no other user holds the same code: the stored hash becomes
    the hash of the new password and the code is cleared. *)
Theorem otp_issue_then_reset address now otp now' p w u vc :
  Mongoose.unique_ids _id (users w) ->
  UserService.getEmail address (users w) = Some u ->
  verificationCode u = Some vc ->
  (5 * 60 * 1000 <= now - createdAt vc)%Z ->
  (forall x, In x (users w) -> UserService.has_code otp x = true -> x = u) ->
  p <> "" ->
  (now' - now <= 5 * 60 * 1000)%Z ->
  let w1 := fst (sendUserEmailOTP address now otp w) in
  let r := resetUserEmailPassword otp (Some p) (Some p) now' w1 in
  snd r = Ok (responseHandler
                (Array [Some (UserService.reset_to (bcrypt_hash p) u)])
                "Password Successfully Reset" None) /\
  Mongoose.findOne (Mongoose.byId _id (_id u)) (users (fst r))
    = Some (UserService.reset_to (bcrypt_hash p) u).
Proof.
  intros Hc Hu Hv Hold Honly Hp Hsoon w1 r.
  destruct (otp_issued_state address now otp w u vc Hc Hu Hv Hold)
    as (E1 & Hc1 & Hu1).
  fold w1 in E1, Hc1, Hu1.
  destruct (getEmail_Some _ _ _ Hu) as [Hin _].
  set (u1 := UserService.set_verificationCode
               (Some {| code := otp; createdAt := now |}) u) in *.
  assert (Hcode : UserService.getCode otp (users w1) = Some u1).
  { rewrite E1. simpl. unfold UserService.getCode.
    apply findOne_first_patched.
    - now apply only_holder_is_first.
    - unfold UserService.has_code. simpl. apply String.eqb_refl. }
  assert (Htruthy : truthy (Some p) = true).
  { simpl. apply String.eqb_neq in Hp. now rewrite Hp. }
  pose proof (reset_succeeds otp p now' w1 u1 _ Hc1 Htruthy Hcode eq_refl
                Hsoon) as Hrun.
  cbv zeta in Hrun. unfold r. rewrite Hrun. simpl. split; [reflexivity|].
  rewrite E1. simpl.
  rewrite !(findOne_byId_updateOne _id) by reflexivity.
  now rewrite (findOne_byId_unique _id _ u Hc Hin).
Qed.

(** X27: the two five-minute windows fit together.  While a new code is
    refused (less than five minutes since issue) the stored code is
    still accepted; at exactly five minutes a new code can be requested
    and the stored one is still accepted; later a new code can be
    requested and the stored one is refused as expired. *)
Theorem otp_and_reset_windows address v p now otp w u vc :
  Mongoose.unique_ids _id (users w) ->
  UserService.getEmail address (users w) = Some u ->
  UserService.getCode v (users w) = Some u ->
  verificationCode u = Some vc ->
  p <> "" ->
  let request := snd (sendUserEmailOTP address now otp w) in
  let reset := snd (resetUserEmailPassword v (Some p) (Some p) now w) in
  ((now - createdAt vc < 5 * 60 * 1000)%Z ->
     request = Throw RateLimited /\ exists r, reset = Ok r) /\
  ((now - createdAt vc = 5 * 60 * 1000)%Z ->
     (exists r, request = Ok r) /\ exists r, reset = Ok r) /\
  ((now - createdAt vc > 5 * 60 * 1000)%Z ->
     (exists r, request = Ok r) /\ reset = Throw Expired).
Proof.
  intros Hc Hu Hcode Hv Hp request reset.
  assert (Htruthy : truthy (Some p) = true).
  { simpl. apply String.eqb_neq in Hp. now rewrite Hp. }
  assert (Hreq : (5 * 60 * 1000 <= now - createdAt vc)%Z ->
                 exists r, request = Ok r).
  { intros Hge. unfold request.
    rewrite (sendUserEmailOTP_issues address now otp w u vc Hu Hv Hge).
    simpl. eauto. }
  assert (Hres : (now - createdAt vc <= 5 * 60 * 1000)%Z ->
                 exists r, reset = Ok r).
  { intros Hle. unfold reset.
    pose proof (reset_succeeds v p now w u vc Hc Htruthy Hcode Hv Hle) as E.
    cbv zeta in E. rewrite E. simpl. eauto. }
  split; [|split].
  - intros Hlt. split; [|apply Hres; lia]. unfold request.
    now rewrite (sendUserEmailOTP_rate_limited address now otp w u vc Hu Hv
                   Hlt).
  - intros Heq. split; [apply Hreq|apply Hres]; lia.
  - intros Hgt. split; [apply Hreq; lia|]. unfold reset.
    now rewrite (reset_expired v p now w u vc Htruthy Hcode Hv Hgt).
Qed.

(** X28: a code is used up by the first reset that finds it.  Whether
    that reset succeeded or found the code expired, when no other user
    holds the same code a second reset with it stops with the TypeError
    of the unguarded read and changes nothing. *)
Theorem reset_code_single_use v p q now now' w u vc :
  Mongoose.unique_ids _id (users w) ->
  UserService.getCode v (users w) = Some u ->
  verificationCode u = Some vc ->
  (forall x, In x (users w) -> UserService.has_code v x = true -> x = u) ->
  p <> "" -> q <> "" ->
  let w1 := fst (resetUserEmailPassword v (Some p) (Some p) now w) in
  resetUserEmailPassword v (Some q) (Some q) now' w1
  = (w1, Throw (TypeError "verificationCode")).
Proof.
  intros Hc Hcode Hv Honly Hp Hq w1.
  assert (Htp : truthy (Some p) = true).
  { simpl. apply String.eqb_neq in Hp. now rewrite Hp. }
  assert (Htq : truthy (Some q) = true).
  { simpl. apply String.eqb_neq in Hq. now rewrite Hq. }
  destruct (findOne_Some _ _ _ Hcode) as [Hin _].
  apply reset_unknown_code; [assumption|].
  assert (Hstate : exists f,
    users w1 = Mongoose.updateOne (Mongoose.byId _id (_id u)) f (users w) /\
    (forall y, _id (f y) = _id y) /\
    UserService.has_code v (f u) = false).
  { destruct (Z_gt_le_dec (now - createdAt vc) (5 * 60 * 1000)) as [Hgt|Hle].
    - exists (UserService.set_verificationCode None). unfold w1.
      rewrite (reset_expired v p now w u vc Htp Hcode Hv Hgt). simpl.
      split; [|split; reflexivity].
      unfold UserService.save. apply updateOne_ext. intros d Hd Hid.
      apply byId_true in Hid.
      now rewrite (same_id_same_doc _id _ d u Hc Hd Hin Hid).
    - exists (UserService.reset_to (bcrypt_hash p)). unfold w1.
      pose proof (reset_succeeds v p now w u vc Hc Htp Hcode Hv Hle) as E.
      cbv zeta in E. rewrite E. simpl. repeat split. }
  destruct Hstate as (f & -> & Hid & Hgone).
  apply findOne_None. intros x Hx.
  apply (In_updateOne_byId _id) in Hx as [->|[Hx Hne]]; auto.
  destruct (UserService.has_code v x) eqn:E; [|reflexivity].
  exfalso. apply Hne. now rewrite (Honly x Hx E).
Qed.
End ControllerMore.

(** ** The further properties on the sample state *)

Lemma world1_unique : Mongoose.unique_ids User._id (users world1).
Proof.
  unfold Mongoose.unique_ids. simpl.
  repeat constructor; simpl; intuition discriminate.
Qed.

Lemma getSingleUser_outcomes_witness :
  getSingleUser "u1" world1
    = (world1, Ok (responseHandler (Single (Some ann))
                     "User retrieved successfully" None)) /\
  getSingleUser "u3" world1
    = (world1, Ok (responseHandler (Single None) "No User found" None)).
Proof.
  split.
  - apply (proj1 (getSingleUser_outcomes "u1" world1 world1_unique) ann);
      simpl; auto.
  - apply (proj2 (getSingleUser_outcomes "u3" world1 world1_unique)).
    simpl. intros u [<-|[<-|[<-|[]]]]; [discriminate|discriminate|reflexivity].
Defined.

Lemma deleteUser_outcomes_witness :
  deleteUser "u3" world1
    = (world1,
       Ok (responseHandler (Array []) "User is already deleted" None)) /\
  deleteUser "u9" world1
    = (world1,
       Ok (responseHandler (Array [None]) "User deleted successfully" None)).
Proof.
  split.
  - apply (proj1 (proj2 (deleteUser_outcomes "u3" world1 world1_unique))
             cleo); simpl; auto.
  - apply (proj2 (proj2 (deleteUser_outcomes "u9" world1 world1_unique))).
    simpl. intuition discriminate.
Defined.

Lemma restoreUser_outcomes_witness :
  restoreUser "u3" world1
    = (set_users [ann; bob; UserService.set_deleted false cleo] world1,
       Ok (responseHandler (Array [Some cleo])
             "User restored successfully" None)) /\
  restoreUser "u1" world1
    = (world1, Ok (responseHandler (Array []) "User is not deleted" None)).
Proof.
  split.
  - apply (proj1 (restoreUser_outcomes "u3" world1 world1_unique) cleo);
      simpl; auto.
  - apply (proj1 (proj2 (restoreUser_outcomes "u1" world1 world1_unique))
             ann); simpl; auto.
Defined.

Lemma changeUserPassword_outcomes_witness :
  changeUserPassword (H := sample) "u1" (Some "lily") None world0
    = (world0, Throw (createError STATUSCODE.BAD_REQUEST
                        "Both passwords are required")) /\
  changeUserPassword (H := sample) "u1" (Some "lily") (Some "lilac") world0
    = (world0, Throw (createError STATUSCODE.BAD_REQUEST
                        "Passwords do not match")) /\
  changeUserPassword (H := sample) "u1" (Some "lily") (Some "lily") world0
    = (set_users [UserService.set_password "$2b$lily" ann; bob] world0,
       Ok (responseHandler
             (Array [Some (UserService.set_password "$2b$lily" ann)])
             "Password changed successfully" None)).
Proof.
  split; [|split].
  - apply (proj1 (changeUserPassword_outcomes (H := sample)
                    "u1" (Some "lily") None world0)).
    now right.
  - apply (proj1 (proj2 (changeUserPassword_outcomes (H := sample)
                           "u1" (Some "lily") (Some "lilac") world0)));
      [reflexivity|reflexivity|discriminate].
  - apply (proj2 (proj2 (changeUserPassword_outcomes (H := sample)
                           "u1" (Some "lily") (Some "lily") world0))
             "lily" ann);
      [reflexivity|reflexivity|discriminate|exact world0_unique
      |simpl; auto|reflexivity].
Defined.

Lemma password_change_then_login_witness :
  let w' := fst (changeUserPassword (H := sample) "u1" (Some "lily")
                   (Some "lily") world0) in
  loginUser (H := sample) "ann@shop.io" "lily" w'
    = (set_savedToken (Some "jwt:u1:Admin") w',
       Ok (responseHandler
             (Single (Some (UserService.set_password "$2b$lily" ann)))
             "User Login successfully"
             (Some {| access := "jwt:u1:Admin" |}))) /\
  (forall old, bcrypt_compare (Collaborators := sample) old "$2b$lily" = false ->
     loginUser (H := sample) "ann@shop.io" old w'
       = (w', Throw Unauthorized_password)).
Proof.
  apply (password_change_then_login (H := sample) "lily" ann world0).
  - exact world0_unique.
  - reflexivity.
  - discriminate.
  - reflexivity.
Defined.


Lemma register_then_login_witness :
  let w' := fst (createNewUser (H := sample) dora [photo] world0) in
  exists stored,
    UserService.getEmail "dora@shop.io" (users w') = Some stored /\
    User.password stored = "$2b$orchid" /\
    User.image stored
      = [ {| User.public_id := "face.png";
             User.url := "uploads/face.png" |} ] /\
    loginUser (H := sample) "dora@shop.io" "orchid" w'
      = (set_savedToken (Some "jwt:u4:Customer") w',
         Ok (responseHandler (Single (Some stored))
               "User Login successfully"
               (Some {| access := "jwt:u4:Customer" |}))).
Proof.
  apply (register_then_login (H := sample) dora [photo] world0).
  - discriminate.
  - simpl. intros u [<-|[<-|[]]]; discriminate.
  - reflexivity.
Defined.

Lemma login_then_logout_witness :
  logoutUser (fst (loginUser (H := sample) "bob@shop.io" "hunter2" world0))
    = (set_blacklist ({[ "jwt:u2:Customer" ]} ∪ blacklist world0)
         (set_savedToken (Some "jwt:u2:Customer") world0),
       Ok (responseHandler (Array []) "User Logout successfully" None)).
Proof.
  apply (proj1 (login_then_logout (H := sample) "bob@shop.io" "hunter2"
                  world0 bob eq_refl eq_refl ltac:(discriminate))).
  simpl. set_solver.
Defined.

Lemma update_without_files_needs_active_user_witness :
  updateUser (H := sample) "u3" User.no_patch [] world1
    = (world1, Throw (TypeError "image")).
Proof.
  apply (update_without_files_needs_active_user (H := sample)).
  simpl. intros u [<-|[<-|[<-|[]]]]; [discriminate|discriminate|reflexivity].
Defined.

Lemma update_with_files_witness :
  let images := [ {| User.public_id := "face.png";
                     User.url := "uploads/face.png" |} ] in
  updateUser (H := sample) "u1" User.no_patch [photo] world0
    = (set_users
         [User.apply_patch (User.with_image images User.no_patch) ann; bob]
         (set_imageStore [Destroy "img1"; Upload photo] world0),
       Ok (responseHandler
             (Array [Some (User.apply_patch
                             (User.with_image images User.no_patch) ann)])
             "User updated successfully" None)) /\
  User.image (User.apply_patch (User.with_image images User.no_patch) ann)
    = images.
Proof.
  intros images.
  apply (proj1 (update_with_files (H := sample) "u1" User.no_patch [photo]
                  world0 ann world0_unique (or_introl eq_refl) eq_refl
                  ltac:(discriminate))).
  reflexivity.
Defined.

Lemma forceDeleteUser_unknown_id_witness :
  forceDeleteUser (H := sample) "u9" world0
    = (world0, Ok (responseHandler (Array [None]) "No User found" None)).
Proof.
  apply (forceDeleteUser_unknown_id (H := sample)).
  simpl. intuition discriminate.
Defined.


Lemma otp_issue_then_reset_witness :
  let w1 := fst (sendUserEmailOTP "bob@shop.io" 2000000 "111111" world0) in
  let r := resetUserEmailPassword (H := sample) "111111" (Some "lily")
             (Some "lily") 2100000 w1 in
  snd r = Ok (responseHandler
                (Array [Some (UserService.reset_to "$2b$lily" bob)])
                "Password Successfully Reset" None) /\
  Mongoose.findOne (Mongoose.byId User._id "u2") (users (fst r))
    = Some (UserService.reset_to "$2b$lily" bob).
Proof.
  apply (otp_issue_then_reset (H := sample) "bob@shop.io" 2000000 "111111"
           2100000 "lily" world0 bob _ world0_unique eq_refl eq_refl).
  - simpl. lia.
  - simpl. intros x [<-|[<-|[]]]; discriminate.
  - discriminate.
  - lia.
Defined.

Lemma otp_and_reset_windows_witness :
  snd (sendUserEmailOTP "bob@shop.io" 1100000 "111111" world0)
    = Throw RateLimited /\
  exists r,
    snd (resetUserEmailPassword (H := sample) "482913" (Some "lily")
           (Some "lily") 1100000 world0) = Ok r.
Proof.
  apply (proj1 (otp_and_reset_windows (H := sample) "bob@shop.io" "482913"
                  "lily" 1100000 "111111" world0 bob _ world0_unique
                  eq_refl eq_refl eq_refl ltac:(discriminate))).
  simpl. lia.
Defined.

Lemma reset_code_single_use_witness :
  let w1 := fst (resetUserEmailPassword (H := sample) "482913"
                   (Some "lily") (Some "lily") 1100000 world0) in
  resetUserEmailPassword (H := sample) "482913" (Some "rose") (Some "rose")
    1100001 w1
  = (w1, Throw (TypeError "verificationCode")).
Proof.
  apply (reset_code_single_use (H := sample) "482913" "lily" "rose"
           1100000 1100001 world0 bob _ world0_unique eq_refl eq_refl).
  - simpl. intros x [<-|[<-|[]]]; [discriminate|reflexivity].
  - discriminate.
  - discriminate.
Defined.
